(** * Credit-management assessment service (app/main.py)

    A shallow embedding of the FastAPI application in [app/main.py]:
    the two pydantic input models [SelectItem] and [NoteContext] with the
    [no_none] "before" validator, the summarizer [summarize_context], the
    model call [llm_assess], the request handler [assess_note_context] and
    the [health] endpoint.

    Python values that come out of [json.loads] are the inductive [pyval].
    The external model service is an oracle; every call to it is appended
    to a call log, which is the only state the handler threads. *)

From Stdlib Require Import List String Ascii ZArith Bool Lia.
From Stdlib Require Import Floats.SpecFloat.
Import ListNotations.
Local Open Scope string_scope.
Local Open Scope list_scope.

(** ** Python values *)

(** The objects [json.loads] can build.  A [str] is a sequence of
    characters, one [ascii] each; a [dict] keeps its insertion order, so it
    is an association list (keys are distinct in a real dict, and lookups
    take the first binding). *)
#[warnings="-register-all"]
Inductive pyval : Type :=
| VNone
| VBool (b : bool)
| VInt (z : Z)
| VFloat (f : spec_float)
| VStr (s : string)
| VList (l : list pyval)
| VDict (d : list (string * pyval)).

(** [type(v).__name__] *)
Definition type_name (v : pyval) : string :=
  match v with
  | VNone => "NoneType"
  | VBool _ => "bool"
  | VInt _ => "int"
  | VFloat _ => "float"
  | VStr _ => "str"
  | VList _ => "list"
  | VDict _ => "dict"
  end.

(** [bool(v)]: the truth value tested by [if x]. *)
Definition truthy (v : pyval) : bool :=
  match v with
  | VNone => false
  | VBool b => b
  | VInt z => negb (Z.eqb z 0)
  | VFloat (S754_zero _) => false
  | VFloat _ => true
  | VStr s => negb (String.eqb s "")
  | VList l => match l with [] => false | _ => true end
  | VDict d => match d with [] => false | _ => true end
  end.

(** An instance of a subclass of [Exception]: its class name and [str(e)]. *)
Record pyexc : Type := PyExc { exc_type : string; exc_str : string }.

Definition TypeError_not_iterable (v : pyval) : pyexc :=
  PyExc "TypeError" ("'" ++ type_name v ++ "' object is not iterable").

Definition AttributeError_get (v : pyval) : pyexc :=
  PyExc "AttributeError" ("'" ++ type_name v ++ "' object has no attribute 'get'").

(** A float that JSON can write: not an infinity and not a NaN. *)
Definition finite_float (f : spec_float) : bool :=
  match f with
  | S754_infinity _ | S754_nan => false
  | _ => true
  end.

(** [json.dumps(v, allow_nan=False)] returns: no float anywhere in [v] is
    an infinity or a NaN.  This is how the application renders every JSON
    response. *)
Fixpoint json_compliant (v : pyval) : bool :=
  match v with
  | VFloat f => finite_float f
  | VList l => forallb json_compliant l
  | VDict d => forallb (fun kv => json_compliant (snd kv)) d
  | _ => true
  end.

(** What [json.dumps(_, allow_nan=False)] raises otherwise. *)
Definition ValueError_not_compliant : pyexc :=
  PyExc "ValueError" "Out of range float values are not JSON compliant".

(** [iter(v)]: the items a [for] loop over [v] visits.  A [str] yields its
    one-character substrings, a [dict] its keys; the other JSON types are
    not iterable. *)
Definition py_iter (v : pyval) : pyexc + list pyval :=
  match v with
  | VList l => inr l
  | VStr s => inr (map (fun c => VStr (String c EmptyString)) (list_ascii_of_string s))
  | VDict d => inr (map (fun kv => VStr (fst kv)) d)
  | _ => inl (TypeError_not_iterable v)
  end.

(** [d.get(k)] on the association list of a dict. *)
Fixpoint dict_find (k : string) (d : list (string * pyval)) : option pyval :=
  match d with
  | [] => None
  | (k', v) :: r => if String.eqb k k' then Some v else dict_find k r
  end.

(** [v.get(k, default)]: only a dict has the method. *)
Definition py_get (v : pyval) (k : string) (default : pyval) : pyexc + pyval :=
  match v with
  | VDict d => inr (match dict_find k d with Some x => x | None => default end)
  | _ => inl (AttributeError_get v)
  end.

(** ** Input models *)

(** [class SelectItem(BaseModel)] *)
Record SelectItem : Type := mkSelectItem {
  table : string;
  target_type : string;
  target_name : string;
  used_fields : list string;
  suggested_fields : list string;
  suggested_statement : option string
}.

(** [class NoteContext(BaseModel)] *)
Record NoteContext : Type := mkNoteContext {
  pgm_name : option string;
  inc_name : option string;
  type : option string;
  name : option string;
  cm_obj_usage : list SelectItem
}.

(** [SelectItem.no_none]: [return [x for x in v if x]].  It runs in mode
    "before", on the raw value of the field. *)
Definition no_none (v : pyval) : pyexc + list pyval :=
  match py_iter v with
  | inl e => inl e
  | inr items => inr (filter truthy items)
  end.

(** ** Schema validation (pydantic, lax mode, Python input)

    The outcome of validating one value.  pydantic collects the line errors
    of every field and every list item and reports them together
    ([Invalid]: a [ValidationError], which FastAPI answers with 422, see
    [post_assess]).  An
    exception raised inside a validator function that is neither a
    [ValueError] nor an [AssertionError] is not collected: it leaves the
    validation at once ([Crashed]). *)
Inductive validated (A : Type) : Type :=
| Valid (a : A)
| Invalid
| Crashed (e : pyexc).
Arguments Valid {A} a.
Arguments Invalid {A}.
Arguments Crashed {A} e.

(** Validate one more field (or item) after the ones before it: errors
    accumulate, a crash stops the walk where it happens. *)
Definition vap {A B : Type} (f : validated (A -> B)) (x : validated A) : validated B :=
  match f with
  | Crashed e => Crashed e
  | Valid g =>
      match x with
      | Valid a => Valid (g a)
      | Invalid => Invalid
      | Crashed e => Crashed e
      end
  | Invalid =>
      match x with
      | Crashed e => Crashed e
      | _ => Invalid
      end
  end.

Notation "f <*> x" := (vap f x) (at level 61, left associativity).

(** A field without default: a missing key is a line error. *)
Definition required {A : Type} (validate : pyval -> validated A)
    (k : string) (d : list (string * pyval)) : validated A :=
  match dict_find k d with
  | Some v => validate v
  | None => Invalid
  end.

(** A field with a default: a missing key takes it, and no validator runs. *)
Definition defaulted {A : Type} (validate : pyval -> validated A)
    (k : string) (default : A) (d : list (string * pyval)) : validated A :=
  match dict_find k d with
  | Some v => validate v
  | None => Valid default
  end.

(** [str] *)
Definition validate_str (v : pyval) : validated string :=
  match v with
  | VStr s => Valid s
  | _ => Invalid
  end.

(** [Optional[str]] *)
Definition validate_optional_str (v : pyval) : validated (option string) :=
  match v with
  | VNone => Valid None
  | VStr s => Valid (Some s)
  | _ => Invalid
  end.

(** The items of a [List[...]], in order. *)
Fixpoint validate_items {A : Type} (validate : pyval -> validated A)
    (l : list pyval) : validated (list A) :=
  match l with
  | [] => Valid []
  | x :: r => Valid cons <*> validate x <*> validate_items validate r
  end.

(** [List[...]]: of the JSON types only a list is taken. *)
Definition validate_list {A : Type} (validate : pyval -> validated A)
    (v : pyval) : validated (list A) :=
  match v with
  | VList l => validate_items validate l
  | _ => Invalid
  end.

(** [used_fields] and [suggested_fields]: [no_none] first, on the raw
    value, then [List[str]] on what it returns. *)
Definition validate_fields (v : pyval) : validated (list string) :=
  match no_none v with
  | inl e => Crashed e
  | inr items => validate_list validate_str (VList items)
  end.

Definition validate_SelectItem (v : pyval) : validated SelectItem :=
  match v with
  | VDict d =>
      Valid mkSelectItem
        <*> required validate_str "table" d
        <*> required validate_str "target_type" d
        <*> required validate_str "target_name" d
        <*> required validate_fields "used_fields" d
        <*> required validate_fields "suggested_fields" d
        <*> defaulted validate_optional_str "suggested_statement" None d
  | _ => Invalid
  end.

Definition validate_NoteContext (v : pyval) : validated NoteContext :=
  match v with
  | VDict d =>
      Valid mkNoteContext
        <*> defaulted validate_optional_str "pgm_name" None d
        <*> defaulted validate_optional_str "inc_name" None d
        <*> defaulted validate_optional_str "type" None d
        <*> defaulted validate_optional_str "name" None d
        <*> defaulted (validate_list validate_SelectItem) "cm_obj_usage" [] d
  | _ => Invalid
  end.

(** The body parameter [ctxs: List[NoteContext]]. *)
Definition validate_body (body : pyval) : validated (list NoteContext) :=
  validate_list validate_NoteContext body.

(** *** The inputs a validation error reports

    Every line error of a [ValidationError] carries the value it is about
    (its [input]); the 422 response writes these values back to the
    caller.  The functions below list them, in the order of the
    validation above: the value itself where a type is wrong, the whole
    object where a required key is missing. *)

Definition str_errors (v : pyval) : list pyval :=
  match v with
  | VStr _ => []
  | _ => [v]
  end.

Definition optional_str_errors (v : pyval) : list pyval :=
  match v with
  | VNone | VStr _ => []
  | _ => [v]
  end.

Definition list_errors (item_errors : pyval -> list pyval) (v : pyval) : list pyval :=
  match v with
  | VList l => flat_map item_errors l
  | _ => [v]
  end.

Definition fields_errors (v : pyval) : list pyval :=
  match no_none v with
  | inl _ => []
  | inr items => list_errors str_errors (VList items)
  end.

Definition required_errors (errors : pyval -> list pyval)
    (k : string) (d : list (string * pyval)) : list pyval :=
  match dict_find k d with
  | Some v => errors v
  | None => [VDict d]
  end.

Definition defaulted_errors (errors : pyval -> list pyval)
    (k : string) (d : list (string * pyval)) : list pyval :=
  match dict_find k d with
  | Some v => errors v
  | None => []
  end.

Definition SelectItem_errors (v : pyval) : list pyval :=
  match v with
  | VDict d =>
      required_errors str_errors "table" d
        ++ required_errors str_errors "target_type" d
        ++ required_errors str_errors "target_name" d
        ++ required_errors fields_errors "used_fields" d
        ++ required_errors fields_errors "suggested_fields" d
        ++ defaulted_errors optional_str_errors "suggested_statement" d
  | _ => [v]
  end.

Definition NoteContext_errors (v : pyval) : list pyval :=
  match v with
  | VDict d =>
      defaulted_errors optional_str_errors "pgm_name" d
        ++ defaulted_errors optional_str_errors "inc_name" d
        ++ defaulted_errors optional_str_errors "type" d
        ++ defaulted_errors optional_str_errors "name" d
        ++ defaulted_errors (list_errors SelectItem_errors) "cm_obj_usage" d
  | _ => [v]
  end.

Definition body_errors (body : pyval) : list pyval :=
  list_errors NoteContext_errors body.

(** ** Summarizer *)

(** An [Optional[str]] attribute as a Python value. *)
Definition of_optional (o : option string) : pyval :=
  match o with
  | Some s => VStr s
  | None => VNone
  end.

(** [item.model_dump()] *)
Definition model_dump (item : SelectItem) : pyval :=
  VDict [ ("table", VStr (table item));
          ("target_type", VStr (target_type item));
          ("target_name", VStr (target_name item));
          ("used_fields", VList (map VStr (used_fields item)));
          ("suggested_fields", VList (map VStr (suggested_fields item)));
          ("suggested_statement", of_optional (suggested_statement item)) ].

Definition summarize_context (ctx : NoteContext) : pyval :=
  VDict [ ("unit_program", of_optional (pgm_name ctx));
          ("unit_include", of_optional (inc_name ctx));
          ("unit_type", of_optional (type ctx));
          ("unit_name", of_optional (name ctx));
          ("cm_obj_usage", VList (map model_dump (cm_obj_usage ctx))) ].

(** ** Effects: the call log and exceptions *)

(** What [chain.invoke] gives back: the parsed reply, or the exception it
    raised (transport failure, reply that is not JSON, ...). *)
Definition llm_outcome : Type := (pyexc + pyval)%type.

(** Every outbound call with its outcome, oldest first. *)
Definition call_log : Type := list (pyval * llm_outcome).

(** What can leave the request handler as an exception. *)
Inductive exn : Type :=
| HTTPException (status_code : nat) (detail : string)
| Uncaught (e : pyexc).

(** A computation that may call the model service and may raise an [E]. *)
Definition M (E A : Type) : Type := call_log -> (E + A) * call_log.

Definition ret {E A : Type} (a : A) : M E A := fun log => (inr a, log).

Definition raise {E A : Type} (e : E) : M E A := fun log => (inl e, log).

Definition bind {E A B : Type} (c : M E A) (k : A -> M E B) : M E B :=
  fun log =>
    match c log with
    | (inr a, log') => k a log'
    | (inl e, log') => (inl e, log')
    end.

(** [try: c  except Exception as e: handler e] *)
Definition try_except {E E' A : Type} (c : M E A) (handler : E -> M E' A) : M E' A :=
  fun log =>
    match c log with
    | (inr a, log') => (inr a, log')
    | (inl e, log') => handler e log'
    end.

(** A pure step whose exception nobody catches. *)
Definition lift {A : Type} (r : pyexc + A) : M exn A :=
  match r with
  | inr a => ret a
  | inl e => raise (Uncaught e)
  end.

Notation "x <- c ;; k" := (bind c (fun x => k))
  (at level 100, c at next level, right associativity).

(** ** The service *)

(** The HTTP responses of the application. *)
Inductive http_response : Type :=
| Response200 (content : pyval)
| ErrorResponse (status_code : nat) (detail : string)
| ValidationError422
| InternalServerError500 (e : pyexc).

Inductive request : Type :=
| POST_assess (body : pyval)
| GET_health.

Section Service.

(** [os.getenv], read once when the module is loaded. *)
Variable getenv : string -> option string.

(** [json.dumps(_, ensure_ascii=False, indent=2)] *)
Variable json_dumps : pyval -> string.

(** [chain.invoke]: the prompt, the model service and the JSON parser.
    Its answer may depend on the input and on everything it was asked
    before. *)
Variable chain_invoke : call_log -> pyval -> llm_outcome.

Definition OPENAI_MODEL : string :=
  match getenv "OPENAI_MODEL" with
  | Some m => m
  | None => "gpt-4o"
  end.

(** The argument [llm_assess] passes to [chain.invoke]. *)
Definition chain_input (ctx : NoteContext) : pyval :=
  let ctx_json := json_dumps (summarize_context ctx) in
  VDict [ ("context_json", VStr ctx_json);
          ("pgm_name", of_optional (pgm_name ctx));
          ("inc_name", of_optional (inc_name ctx));
          ("type", of_optional (type ctx));
          ("name", of_optional (name ctx)) ].

(** [llm_assess]: one call to the chain, recorded in the log.  The summary
    holds strings, [None], lists and dicts only, so [json.dumps] returns. *)
Definition llm_assess (ctx : NoteContext) : M pyexc pyval :=
  fun log =>
    let input := chain_input ctx in
    let out := chain_invoke log input in
    (out, log ++ [(input, out)]).

(** The body of [for ctx in ctxs], with the list [results] built so far. *)
Fixpoint assess_loop (ctxs : list NoteContext) (results : list pyval)
    : M exn (list pyval) :=
  match ctxs with
  | [] => ret results
  | ctx :: rest =>
      llm_result <-
        try_except (llm_assess ctx)
          (fun e => raise (HTTPException 502 ("LLM call failed: " ++ exc_str e))) ;;
      assessment <- lift (py_get llm_result "assessment" (VStr "")) ;;
      llm_prompt <- lift (py_get llm_result "llm_prompt" (VStr "")) ;;
      assess_loop rest
        (results ++
           [ VDict [ ("pgm_name", of_optional (pgm_name ctx));
                     ("inc_name", of_optional (inc_name ctx));
                     ("type", of_optional (type ctx));
                     ("name", of_optional (name ctx));
                     ("code", VStr "");
                     ("assessment", assessment);
                     ("llm_prompt", llm_prompt) ] ])
  end.

Definition assess_note_context (ctxs : list NoteContext) : M exn (list pyval) :=
  assess_loop ctxs [].

Definition health : M exn pyval :=
  ret (VDict [ ("ok", VBool true); ("model", VStr OPENAI_MODEL) ]).

(** What FastAPI makes of a handler's outcome.  A returned value is
    rendered as JSON with [allow_nan=False]; when that raises, the
    exception is nobody's to catch.  The body of an [HTTPException] is its
    detail string, which always renders. *)
Definition respond (r : exn + pyval) : http_response :=
  match r with
  | inr content =>
      if json_compliant content then Response200 content
      else InternalServerError500 ValueError_not_compliant
  | inl (HTTPException status_code detail) => ErrorResponse status_code detail
  | inl (Uncaught e) => InternalServerError500 e
  end.

(** [POST /assess-2217124]: the body is validated first; the handler runs
    only on a valid body.  The 422 response is rendered like any other, and
    it writes back the inputs the errors report. *)
Definition post_assess (body : pyval) (log : call_log) : http_response * call_log :=
  match validate_body body with
  | Valid ctxs =>
      match assess_note_context ctxs log with
      | (inr results, log') => (respond (inr (VList results)), log')
      | (inl e, log') => (respond (inl e), log')
      end
  | Invalid =>
      (if forallb json_compliant (body_errors body) then ValidationError422
       else InternalServerError500 ValueError_not_compliant,
       log)
  | Crashed e => (InternalServerError500 e, log)
  end.

(** [GET /health] *)
Definition get_health (log : call_log) : http_response * call_log :=
  match health log with
  | (r, log') => (respond r, log')
  end.

Definition serve1 (req : request) (log : call_log) : http_response * call_log :=
  match req with
  | POST_assess body => post_assess body log
  | GET_health => get_health log
  end.

(** A run of the server: the requests are served one after the other. *)
Fixpoint serve (reqs : list request) (log : call_log) : list http_response * call_log :=
  match reqs with
  | [] => ([], log)
  | req :: rest =>
      let (resp, log') := serve1 req log in
      let (resps, log'') := serve rest log' in
      (resp :: resps, log'')
  end.

End Service.

(** ** The handler's outcome, read off the outcomes of its calls *)

Section Trace.

Variable json_dumps : pyval -> string.

(** [loop_trace ctxs results calls r]: when the loop runs over [ctxs]
    with [results] built so far and its calls to the model turn out as
    [calls], the handler ends with [r].  One constructor per way through
    the loop body. *)
Inductive loop_trace :
    list NoteContext -> list pyval -> call_log -> exn + list pyval -> Prop :=
| trace_return (results : list pyval) :
    loop_trace [] results [] (inr results)
| trace_call_failed (ctx : NoteContext) (rest : list NoteContext)
      (results : list pyval) (e : pyexc) :
    loop_trace (ctx :: rest) results
      [(chain_input json_dumps ctx, inl e)]
      (inl (HTTPException 502 ("LLM call failed: " ++ exc_str e)))
| trace_no_get (ctx : NoteContext) (rest : list NoteContext)
      (results : list pyval) (v : pyval) :
    (forall d, v <> VDict d) ->
    loop_trace (ctx :: rest) results
      [(chain_input json_dumps ctx, inr v)]
      (inl (Uncaught (AttributeError_get v)))
| trace_append (ctx : NoteContext) (rest : list NoteContext)
      (results : list pyval) (d : list (string * pyval))
      (assessment llm_prompt : pyval) (calls : call_log) (r : exn + list pyval) :
    py_get (VDict d) "assessment" (VStr "") = inr assessment ->
    py_get (VDict d) "llm_prompt" (VStr "") = inr llm_prompt ->
    loop_trace rest
      (results ++
         [ VDict [ ("pgm_name", of_optional (pgm_name ctx));
                   ("inc_name", of_optional (inc_name ctx));
                   ("type", of_optional (type ctx));
                   ("name", of_optional (name ctx));
                   ("code", VStr "");
                   ("assessment", assessment);
                   ("llm_prompt", llm_prompt) ] ])
      calls r ->
    loop_trace (ctx :: rest) results
      ((chain_input json_dumps ctx, inr (VDict d)) :: calls) r.

End Trace.

(** ** Stand-ins for the tests *)

(** A serializer stand-in: the prompt text plays no part in the checks. *)
Definition dumps_stub : pyval -> string := fun _ => "{}".

Definition good_reply : pyval :=
  VDict [ ("assessment", VStr "obsolete"); ("llm_prompt", VStr "replace") ].

(** A model that always answers with a complete object. *)
Definition chain_ok : call_log -> pyval -> llm_outcome :=
  fun _ _ => inr good_reply.

(** A model whose second call (of the process) fails. *)
Definition chain_fail_second : call_log -> pyval -> llm_outcome :=
  fun log _ =>
    if Nat.eqb (List.length log) 1 then inl (PyExc "APIConnectionError" "Connection error.")
    else inr good_reply.

(** A model whose second call answers with a JSON array. *)
Definition chain_array_second : call_log -> pyval -> llm_outcome :=
  fun log _ =>
    if Nat.eqb (List.length log) 1 then inr (VList [VStr "obsolete"])
    else inr good_reply.

(** A model that answers with an object holding an infinity, as the
    reply [{"assessment": 1e400}] parses. *)
Definition chain_infinity : call_log -> pyval -> llm_outcome :=
  fun _ _ => inr (VDict [ ("assessment", VFloat (S754_infinity false)) ]).

Definition unit_ctx (n : string) : NoteContext :=
  mkNoteContext (Some "Z_CM") None (Some "FORM") (Some n) [].

Definition three_units : list NoteContext :=
  [unit_ctx "A"; unit_ctx "B"; unit_ctx "C"].

(** The request of the specification's example. *)
Definition example_request : pyval :=
  VList [ VDict [ ("pgm_name", VStr "Z_CM");
                  ("inc_name", VStr "Z_CM_I01");
                  ("type", VStr "FORM");
                  ("name", VStr "CHECK_CREDIT");
                  ("cm_obj_usage",
                    VList [ VDict [ ("table", VStr "S066");
                                    ("target_type", VStr "TABLE");
                                    ("target_name", VStr "S066");
                                    ("used_fields", VList [VStr "KUNNR"; VStr ""; VNone]);
                                    ("suggested_fields", VList [VStr "UKM_ITEM"]) ] ]) ] ].

(** A metadata key of a raw record is absent, [null] or a string. *)
Definition optional_str_or_absent (k : string) (d : list (string * pyval)) : bool :=
  match dict_find k d with
  | None | Some VNone | Some (VStr _) => true
  | Some _ => false
  end.

(** A raw usage object with the given [table] binding (if any) and the
    given raw [used_fields]. *)
Definition raw_usage (tbl : option pyval) (used : pyval) : pyval :=
  VDict ((match tbl with Some t => [("table", t)] | None => [] end) ++
         [ ("target_type", VStr "TABLE");
           ("target_name", VStr "S066");
           ("used_fields", used);
           ("suggested_fields", VList [VStr "UKM_ITEM"]) ]).

(** A request body of one record with the given usages. *)
Definition raw_request (usages : list pyval) : pyval :=
  VList [ VDict [ ("pgm_name", VStr "Z_CM");
                  ("inc_name", VStr "Z_CM_I01");
                  ("type", VStr "FORM");
                  ("name", VStr "CHECK_CREDIT");
                  ("cm_obj_usage", VList usages) ] ].

(** The context a request of that shape validates to, when it does. *)
Definition checked_ctx (used : list string) : NoteContext :=
  mkNoteContext (Some "Z_CM") (Some "Z_CM_I01") (Some "FORM") (Some "CHECK_CREDIT")
    [ mkSelectItem "S066" "TABLE" "S066" used ["UKM_ITEM"] None ].

(** ** Module start-up *)

(** [os.environ]: the value of each variable, if it is set. *)
Definition environ : Type := string -> option string.

(** [os.environ[k] = v] *)
Definition setenv (k v : string) (env : environ) : environ :=
  fun k' => if String.eqb k' k then Some v else env k'.

(** The statements the module runs when it is loaded, after
    [load_dotenv]: the two keys are read and written back when they are
    set and not empty, tracing is switched on, and the model identifier is
    read.  The result is the environment left behind and [OPENAI_MODEL]. *)
Definition startup (env : environ) : environ * string :=
  let langchain_api_key := env "LANGCHAIN_API_KEY" in
  let openai_api_key := env "OPENAI_API_KEY" in
  let env1 :=
    match langchain_api_key with
    | Some key => if negb (String.eqb key "") then setenv "LANGCHAIN_API_KEY" key env else env
    | None => env
    end in
  let env2 :=
    match openai_api_key with
    | Some key => if negb (String.eqb key "") then setenv "OPENAI_API_KEY" key env1 else env1
    | None => env1
    end in
  let env3 := setenv "LANGCHAIN_TRACING_V2" "true" env2 in
  (env3, OPENAI_MODEL env3).

(** ** Vocabulary of the further properties *)

(** The strings of a list of strings and nulls that [no_none] keeps. *)
Fixpoint kept_strings (l : list (option string)) : list string :=
  match l with
  | [] => []
  | Some s :: r => if String.eqb s "" then kept_strings r else s :: kept_strings r
  | None :: r => kept_strings r
  end.

(** The model's answer is a JSON object. *)
Definition dict_reply (c : pyval * llm_outcome) : Prop :=
  exists d, snd c = inr (VDict d).

(** A request that can get as far as the model service: a [POST] whose
    body validates to a batch that is not empty. *)
Definition reaches_model (req : request) : bool :=
  match req with
  | POST_assess body =>
      match validate_body body with
      | Valid (_ :: _) => true
      | _ => false
      end
  | GET_health => false
  end.

(** The keys of a result object, in the order the handler writes them. *)
Definition result_keys : list string :=
  ["pgm_name"; "inc_name"; "type"; "name"; "code"; "assessment"; "llm_prompt"].

(** The field names of the two input models. *)
Definition SelectItem_fields : list string :=
  ["table"; "target_type"; "target_name"; "used_fields"; "suggested_fields";
   "suggested_statement"].

Definition NoteContext_fields : list string :=
  ["pgm_name"; "inc_name"; "type"; "name"; "cm_obj_usage"].

(** * Properties *)

(** ** Validation *)

Lemma vap_valid {A B : Type} (f : validated (A -> B)) (x : validated A) (b : B) :
  f <*> x = Valid b ->
  exists g a, f = Valid g /\ x = Valid a /\ b = g a.
Proof.
  destruct f as [g| |e], x as [a| |e']; cbn; intros H; try discriminate H.
  injection H as <-. exists g, a. repeat split.
Qed.

Lemma required_valid {A : Type} (validate : pyval -> validated A) k d a :
  required validate k d = Valid a ->
  exists raw, dict_find k d = Some raw /\ validate raw = Valid a.
Proof.
  unfold required. destruct (dict_find k d) as [raw|]; [|discriminate].
  intros H. exists raw. split; [reflexivity | exact H].
Qed.

Lemma validate_str_valid v s : validate_str v = Valid s -> v = VStr s.
Proof.
  destruct v; cbn; intros H; try discriminate H. injection H as ->. reflexivity.
Qed.

Lemma validate_items_valid {A : Type} (validate : pyval -> validated A) items :
  forall l, validate_items validate items = Valid l ->
  Forall2 (fun raw a => validate raw = Valid a) items l.
Proof.
  induction items as [|x items IH]; cbn [validate_items]; intros l H.
  - injection H as <-. constructor.
  - apply vap_valid in H as (g & tl & Hg & Htl & ->).
    apply vap_valid in Hg as (c & a & Hc & Ha & ->).
    injection Hc as <-. constructor; [exact Ha | exact (IH _ Htl)].
Qed.

(** A list that passes [List[str]] holds strings only. *)
Lemma validate_items_str items l :
  validate_items validate_str items = Valid l -> items = map VStr l.
Proof.
  intros H. apply validate_items_valid in H.
  induction H as [|raw s items l Hs _ IH]; [reflexivity|].
  apply validate_str_valid in Hs. cbn. rewrite Hs, IH. reflexivity.
Qed.

Lemma validate_fields_valid raw l :
  validate_fields raw = Valid l -> no_none raw = inr (map VStr l).
Proof.
  unfold validate_fields. destruct (no_none raw) as [e|items]; [discriminate|].
  cbn. intros H. apply validate_items_str in H. rewrite H. reflexivity.
Qed.

Lemma no_none_truthy raw kept :
  no_none raw = inr kept -> Forall (fun x => truthy x = true) kept.
Proof.
  unfold no_none. destruct (py_iter raw) as [e|items]; [discriminate|].
  intros H. injection H as <-. apply Forall_forall.
  intros x Hx. apply filter_In in Hx. exact (proj2 Hx).
Qed.

Lemma filter_truthy_again items :
  filter truthy (filter truthy items) = filter truthy items.
Proof.
  induction items as [|x items IH]; [reflexivity|].
  cbn. destruct (truthy x) eqn:Hx; [|exact IH].
  cbn. rewrite Hx, IH. reflexivity.
Qed.

Lemma no_none_idempotent raw kept :
  no_none raw = inr kept -> no_none (VList kept) = inr kept.
Proof.
  unfold no_none. destruct (py_iter raw) as [e|items]; [discriminate|].
  intros H. injection H as <-. cbn. rewrite filter_truthy_again. reflexivity.
Qed.

(** What a valid usage object was built from. *)
Lemma validate_SelectItem_valid v item :
  validate_SelectItem v = Valid item ->
  exists d raw_used raw_suggested,
    v = VDict d /\
    dict_find "table" d = Some (VStr (table item)) /\
    dict_find "target_type" d = Some (VStr (target_type item)) /\
    dict_find "target_name" d = Some (VStr (target_name item)) /\
    dict_find "used_fields" d = Some raw_used /\
    validate_fields raw_used = Valid (used_fields item) /\
    dict_find "suggested_fields" d = Some raw_suggested /\
    validate_fields raw_suggested = Valid (suggested_fields item).
Proof.
  destruct v as [| | | | | |d]; cbn [validate_SelectItem]; intros H;
    try discriminate H.
  apply vap_valid in H as (g6 & st & H & _ & ->).
  apply vap_valid in H as (g5 & sf & H & Hsf & ->).
  apply vap_valid in H as (g4 & uf & H & Huf & ->).
  apply vap_valid in H as (g3 & tn & H & Htn & ->).
  apply vap_valid in H as (g2 & tt & H & Htt & ->).
  apply vap_valid in H as (g1 & tb & H & Htb & ->).
  injection H as <-.
  apply required_valid in Htb as (rtb & Ftb & Vtb). apply validate_str_valid in Vtb.
  apply required_valid in Htt as (rtt & Ftt & Vtt). apply validate_str_valid in Vtt.
  apply required_valid in Htn as (rtn & Ftn & Vtn). apply validate_str_valid in Vtn.
  apply required_valid in Huf as (ruf & Fuf & Vuf).
  apply required_valid in Hsf as (rsf & Fsf & Vsf).
  subst. exists d, ruf, rsf. cbn. repeat split; assumption.
Qed.

Lemma truthy_strings_nonempty l :
  Forall (fun x => truthy x = true) (map VStr l) -> ~ In "" l.
Proof.
  intros Hall Hin. rewrite Forall_forall in Hall.
  specialize (Hall (VStr "") (in_map VStr _ _ Hin)). discriminate Hall.
Qed.

Lemma truthy_not_null kept :
  Forall (fun x => truthy x = true) kept -> ~ In VNone kept /\ ~ In (VStr "") kept.
Proof.
  intros Hall. rewrite Forall_forall in Hall.
  split; intros Hin; specialize (Hall _ Hin); discriminate Hall.
Qed.

(** C3.  In every validated usage object, [used_fields] and
    [suggested_fields] hold no empty string and come from a filtered list
    without [None] and without the empty string; filtering a filtered list
    again gives the same list; and the usage with [used_fields] equal to
    ["KUNNR", "", null] validates to [used_fields] equal to ["KUNNR"]. *)
Theorem validated_fields_are_filtered v item :
  validate_SelectItem v = Valid item ->
  (~ In "" (used_fields item) /\ ~ In "" (suggested_fields item)) /\
  (exists d raw_used raw_suggested,
     v = VDict d /\
     dict_find "used_fields" d = Some raw_used /\
     dict_find "suggested_fields" d = Some raw_suggested /\
     no_none raw_used = inr (map VStr (used_fields item)) /\
     no_none raw_suggested = inr (map VStr (suggested_fields item)) /\
     ~ In VNone (map VStr (used_fields item)) /\
     ~ In VNone (map VStr (suggested_fields item))) /\
  (no_none (VList (map VStr (used_fields item))) = inr (map VStr (used_fields item)) /\
   no_none (VList (map VStr (suggested_fields item)))
     = inr (map VStr (suggested_fields item))) /\
  (forall raw kept,
     no_none raw = inr kept ->
     ~ In VNone kept /\ ~ In (VStr "") kept /\ no_none (VList kept) = inr kept) /\
  validate_body example_request =
    Valid [ mkNoteContext (Some "Z_CM") (Some "Z_CM_I01") (Some "FORM")
              (Some "CHECK_CREDIT")
              [ mkSelectItem "S066" "TABLE" "S066" ["KUNNR"] ["UKM_ITEM"] None ] ].
Proof.
  intros H.
  destruct (validate_SelectItem_valid _ _ H)
    as (d & ru & rs & -> & _ & _ & _ & Fu & Vu & Fs & Vs).
  apply validate_fields_valid in Vu, Vs.
  pose proof (no_none_truthy _ _ Vu) as Tu.
  pose proof (no_none_truthy _ _ Vs) as Ts.
  split; [split; apply truthy_strings_nonempty; assumption|].
  split.
  { exists d, ru, rs. repeat split; try assumption.
    - exact (proj1 (truthy_not_null _ Tu)).
    - exact (proj1 (truthy_not_null _ Ts)). }
  split; [split; eapply no_none_idempotent; eassumption|].
  split; [|reflexivity].
  intros raw kept Hk.
  pose proof (truthy_not_null _ (no_none_truthy _ _ Hk)) as [Hn He].
  repeat split; try assumption.
  eapply no_none_idempotent; eassumption.
Qed.

(** *** The reported inputs agree with the outcome *)

(** A valid value reports nothing, an invalid one reports something. *)
Definition agrees {A : Type} (r : validated A) (errors : list pyval) : Prop :=
  match r with
  | Valid _ => errors = []
  | Invalid => errors <> []
  | Crashed _ => True
  end.

Lemma agrees_vap {A B : Type} (f : validated (A -> B)) (x : validated A) ef ex :
  agrees f ef -> agrees x ex -> agrees (f <*> x) (ef ++ ex).
Proof.
  destruct f as [g| |e1], x as [a| |e2]; cbn; intros Hf Hx; subst;
    try exact I; try reflexivity; try assumption;
    intros Happ; apply app_eq_nil in Happ as [H1 H2]; contradiction.
Qed.

Lemma agrees_str v : agrees (validate_str v) (str_errors v).
Proof. destruct v; cbn; congruence. Qed.

Lemma agrees_optional_str v : agrees (validate_optional_str v) (optional_str_errors v).
Proof. destruct v; cbn; congruence. Qed.

Lemma agrees_items {A : Type} (validate : pyval -> validated A) errors items :
  (forall v, agrees (validate v) (errors v)) ->
  agrees (validate_items validate items) (flat_map errors items).
Proof.
  intros Hv. induction items as [|x items IH]; [reflexivity|].
  cbn [validate_items flat_map].
  apply agrees_vap; [|exact IH].
  apply (agrees_vap (Valid cons) (validate x) [] (errors x)); [reflexivity | apply Hv].
Qed.

Lemma agrees_list {A : Type} (validate : pyval -> validated A) errors v :
  (forall x, agrees (validate x) (errors x)) ->
  agrees (validate_list validate v) (list_errors errors v).
Proof.
  intros Hv. destruct v; cbn [validate_list list_errors agrees]; try congruence.
  apply agrees_items. exact Hv.
Qed.

Lemma agrees_fields v : agrees (validate_fields v) (fields_errors v).
Proof.
  unfold validate_fields, fields_errors.
  destruct (no_none v) as [e|items]; [exact I|].
  apply agrees_list. exact agrees_str.
Qed.

Lemma agrees_required {A : Type} (validate : pyval -> validated A) errors k d :
  (forall v, agrees (validate v) (errors v)) ->
  agrees (required validate k d) (required_errors errors k d).
Proof.
  intros Hv. unfold required, required_errors.
  destruct (dict_find k d); [apply Hv | cbn; congruence].
Qed.

Lemma agrees_defaulted {A : Type} (validate : pyval -> validated A) errors k dflt d :
  (forall v, agrees (validate v) (errors v)) ->
  agrees (defaulted validate k dflt d) (defaulted_errors errors k d).
Proof.
  intros Hv. unfold defaulted, defaulted_errors.
  destruct (dict_find k d); [apply Hv | reflexivity].
Qed.

Lemma agrees_SelectItem v : agrees (validate_SelectItem v) (SelectItem_errors v).
Proof.
  destruct v as [| | | | | |d]; cbn [validate_SelectItem SelectItem_errors agrees];
    try congruence.
  rewrite !app_assoc.
  repeat apply agrees_vap;
    try (apply agrees_required; first [exact agrees_str | exact agrees_fields]);
    try (apply agrees_defaulted; exact agrees_optional_str).
  apply (agrees_vap (Valid mkSelectItem) _ [] _);
    [reflexivity | apply agrees_required; exact agrees_str].
Qed.

Lemma agrees_NoteContext v : agrees (validate_NoteContext v) (NoteContext_errors v).
Proof.
  destruct v as [| | | | | |d]; cbn [validate_NoteContext NoteContext_errors agrees];
    try congruence.
  rewrite !app_assoc.
  repeat apply agrees_vap;
    try (apply agrees_defaulted; first
           [ exact agrees_optional_str
           | intros x; apply agrees_list; exact agrees_SelectItem ]).
  apply (agrees_vap (Valid mkNoteContext) _ [] _);
    [reflexivity | apply agrees_defaulted; exact agrees_optional_str].
Qed.

(** The 422 body of an invalid request reports at least one input; a
    valid request reports none. *)
Lemma agrees_body body : agrees (validate_body body) (body_errors body).
Proof. apply agrees_list. exact agrees_NoteContext. Qed.

(** ** Summarizer *)

(** C6.  The summarizer is a function of its argument alone: equal
    contexts give equal summaries; and the [cm_obj_usage] list of the
    summary is as long as the context's list of usages. *)
Theorem summarize_context_deterministic ctx1 ctx2 :
  ctx1 = ctx2 ->
  summarize_context ctx1 = summarize_context ctx2 /\
  exists usages,
    py_get (summarize_context ctx1) "cm_obj_usage" VNone = inr (VList usages) /\
    List.length usages = List.length (cm_obj_usage ctx1).
Proof.
  intros ->. split; [reflexivity|].
  exists (map model_dump (cm_obj_usage ctx2)).
  split; [reflexivity | apply length_map].
Qed.


Section Properties.

Variable getenv : string -> option string.
Variable json_dumps : pyval -> string.
Variable chain_invoke : call_log -> pyval -> llm_outcome.

Local Abbreviation input_of := (chain_input json_dumps).
Local Abbreviation loop := (assess_loop json_dumps chain_invoke).
Local Abbreviation handle := (assess_note_context json_dumps chain_invoke).
Local Abbreviation post := (post_assess json_dumps chain_invoke).
Local Abbreviation trace := (loop_trace json_dumps).

(** The dict the loop appends for [ctx]. *)
Local Abbreviation result_item ctx assessment llm_prompt :=
  (VDict [ ("pgm_name", of_optional (pgm_name ctx));
           ("inc_name", of_optional (inc_name ctx));
           ("type", of_optional (type ctx));
           ("name", of_optional (name ctx));
           ("code", VStr "");
           ("assessment", assessment);
           ("llm_prompt", llm_prompt) ]).

(** ** The loop, one iteration at a time *)

Lemma assess_loop_call_failed ctx rest results log e :
  chain_invoke log (input_of ctx) = inl e ->
  loop (ctx :: rest) results log =
    (inl (HTTPException 502 ("LLM call failed: " ++ exc_str e)),
     log ++ [(input_of ctx, inl e)]).
Proof.
  intros Hc. cbn [assess_loop].
  unfold bind at 1. unfold try_except, llm_assess.
  rewrite Hc. reflexivity.
Qed.

Lemma assess_loop_no_get ctx rest results log v :
  chain_invoke log (input_of ctx) = inr v ->
  (forall d, v <> VDict d) ->
  loop (ctx :: rest) results log =
    (inl (Uncaught (AttributeError_get v)), log ++ [(input_of ctx, inr v)]).
Proof.
  intros Hc Hv. cbn [assess_loop].
  unfold bind at 1. unfold try_except, llm_assess.
  rewrite Hc.
  destruct v; try reflexivity.
  exfalso. eapply Hv. reflexivity.
Qed.

Lemma assess_loop_append ctx rest results log d :
  chain_invoke log (input_of ctx) = inr (VDict d) ->
  exists assessment llm_prompt,
    py_get (VDict d) "assessment" (VStr "") = inr assessment /\
    py_get (VDict d) "llm_prompt" (VStr "") = inr llm_prompt /\
    loop (ctx :: rest) results log =
      loop rest
        (results ++ [result_item ctx assessment llm_prompt])
        (log ++ [(input_of ctx, inr (VDict d))]).
Proof.
  intros Hc. eexists. eexists.
  split; [reflexivity|]. split; [reflexivity|].
  cbn [assess_loop].
  unfold bind at 1. unfold try_except, llm_assess.
  rewrite Hc. reflexivity.
Qed.

(** Every run of the loop appends its calls to the log and follows one of
    the traces. *)
Lemma assess_loop_trace ctxs : forall results log,
  exists calls,
    snd (loop ctxs results log) = log ++ calls /\
    trace ctxs results calls (fst (loop ctxs results log)).
Proof.
  induction ctxs as [|ctx rest IH]; intros results log.
  - exists []. cbn. rewrite app_nil_r. split; [reflexivity | constructor].
  - destruct (chain_invoke log (input_of ctx)) as [e|v] eqn:Hc.
    + rewrite (assess_loop_call_failed _ rest results _ _ Hc).
      eexists. split; [reflexivity | constructor].
    + assert (Hd : (exists d, v = VDict d) \/ (forall d, v <> VDict d)).
      { destruct v; try (right; intros d0 Hd0; discriminate Hd0).
        left. eexists. reflexivity. }
      destruct Hd as [[d ->] | Hv].
      * destruct (assess_loop_append _ rest results _ _ Hc)
          as (a & p & Ha & Hp & ->).
        match goal with
        | |- context [assess_loop _ _ rest ?rs ?lg] =>
            destruct (IH rs lg) as (calls & Hlog & Htr)
        end.
        exists ((input_of ctx, inr (VDict d)) :: calls). split.
        -- rewrite Hlog, <- app_assoc. reflexivity.
        -- eapply trace_append; eassumption.
      * rewrite (assess_loop_no_get _ rest results _ _ Hc Hv).
        eexists. split; [reflexivity | constructor; assumption].
Qed.

(** The calls a run appended to the log determine its trace. *)
Lemma run_trace ctxs log r calls :
  handle ctxs log = (r, log ++ calls) ->
  trace ctxs [] calls r.
Proof.
  intros Hrun. unfold assess_note_context in Hrun.
  destruct (assess_loop_trace ctxs [] log) as (calls' & Hlog & Htr).
  rewrite Hrun in Hlog, Htr. cbn in Hlog, Htr.
  apply app_inv_head in Hlog. subst calls'. exact Htr.
Qed.

Lemma assess_note_context_appends ctxs log :
  exists calls, snd (handle ctxs log) = log ++ calls.
Proof.
  destruct (assess_loop_trace ctxs [] log) as (calls & Hlog & _).
  exists calls. exact Hlog.
Qed.

(** ** Facts read off a trace *)

(** The [i]-th call of a run is the call for the [i]-th item. *)
Lemma trace_inputs ctxs results calls r :
  trace ctxs results calls r ->
  List.length calls <= List.length ctxs /\
  map fst calls = map input_of (firstn (List.length calls) ctxs).
Proof.
  induction 1 as [results | ctx rest results e | ctx rest results v Hv
                 | ctx rest results d a p calls r Ha Hp Htr [IHlen IHin]];
    cbn [List.length firstn map fst]; try (split; [lia | reflexivity]).
  split; [lia | rewrite IHin; reflexivity].
Qed.

(** A call that raised is the last one, and the handler raised 502. *)
Lemma trace_failed_call ctxs results calls r :
  trace ctxs results calls r ->
  forall i input e,
    nth_error calls i = Some (input, inl e) ->
    r = inl (HTTPException 502 ("LLM call failed: " ++ exc_str e)) /\
    List.length calls = S i.
Proof.
  induction 1 as [results | ctx rest results e0 | ctx rest results v Hv
                 | ctx rest results d a p calls r Ha Hp Htr IH];
    intros i input e Hnth.
  - destruct i; discriminate Hnth.
  - destruct i as [|[|i]]; try discriminate Hnth.
    injection Hnth as _ ->. split; reflexivity.
  - destruct i as [|[|i]]; discriminate Hnth.
  - destruct i as [|i]; [discriminate Hnth|].
    cbn [nth_error] in Hnth.
    destruct (IH _ _ _ Hnth) as [-> Hlen].
    split; [reflexivity | cbn [List.length]; rewrite Hlen; reflexivity].
Qed.

(** A call answered by something other than a dict is the last one, and
    the [AttributeError] of [.get] left the handler. *)
Lemma trace_reply_without_get ctxs results calls r :
  trace ctxs results calls r ->
  forall i input v,
    nth_error calls i = Some (input, inr v) ->
    (forall d, v <> VDict d) ->
    r = inl (Uncaught (AttributeError_get v)) /\
    List.length calls = S i.
Proof.
  induction 1 as [results | ctx rest results e0 | ctx rest results v0 Hv0
                 | ctx rest results d a p calls r Ha Hp Htr IH];
    intros i input v Hnth Hv.
  - destruct i; discriminate Hnth.
  - destruct i as [|[|i]]; discriminate Hnth.
  - destruct i as [|[|i]]; try discriminate Hnth.
    injection Hnth as _ ->. split; reflexivity.
  - destruct i as [|i].
    + injection Hnth as _ <-. exfalso. eapply Hv. reflexivity.
    + cbn [nth_error] in Hnth.
      destruct (IH _ _ _ Hnth Hv) as [-> Hlen].
      split; [reflexivity | cbn [List.length]; rewrite Hlen; reflexivity].
Qed.

(** When every call was answered by a dict, the handler returned. *)
Lemma trace_all_dicts ctxs results calls r :
  trace ctxs results calls r ->
  Forall (fun c => exists d, snd c = inr (VDict d)) calls ->
  exists rs, r = inr rs.
Proof.
  induction 1 as [results | ctx rest results e0 | ctx rest results v0 Hv0
                 | ctx rest results d a p calls r Ha Hp Htr IH];
    intros Hall.
  - eexists. reflexivity.
  - inversion Hall as [|c cs [d Hd] _]. discriminate Hd.
  - inversion Hall as [|c cs [d Hd] _]. cbn in Hd.
    injection Hd as ->. exfalso. eapply Hv0. reflexivity.
  - inversion Hall as [|c cs _ Hrest]. exact (IH Hrest).
Qed.

(** When the handler returned, it made one call per item, and appended
    one result per item, built from that item and that call's reply. *)
Lemma trace_returned ctxs results calls r :
  trace ctxs results calls r ->
  forall rs, r = inr rs ->
  exists new,
    rs = results ++ new /\
    List.length new = List.length ctxs /\
    List.length calls = List.length ctxs /\
    forall i ctx, nth_error ctxs i = Some ctx ->
      exists d a p,
        nth_error calls i = Some (input_of ctx, inr (VDict d)) /\
        py_get (VDict d) "assessment" (VStr "") = inr a /\
        py_get (VDict d) "llm_prompt" (VStr "") = inr p /\
        nth_error new i = Some (result_item ctx a p).
Proof.
  induction 1 as [results | ctx rest results e0 | ctx rest results v0 Hv0
                 | ctx rest results d a p calls r Ha Hp Htr IH];
    intros rs Hr; try discriminate Hr.
  - injection Hr as <-. exists []. rewrite app_nil_r.
    repeat split. intros [|i] ctx Hnth; discriminate Hnth.
  - destruct (IH rs Hr) as (new & -> & Hlen & Hcalls & Hitems).
    exists (result_item ctx a p :: new).
    rewrite <- app_assoc. cbn [app List.length].
    repeat split; try congruence.
    intros [|i] ctx' Hnth; cbn [nth_error] in *.
    + injection Hnth as <-. exists d, a, p. repeat split; assumption.
    + exact (Hitems i ctx' Hnth).
Qed.

(** ** The request handler *)

(** C1.  In a batch of valid items whose [k]-th model call (counting
    from 1) raises an exception, the handler answers with the single 502
    error whose detail carries the failure message and returns no result
    list: what it had built for items 1..k-1 is dropped, and it made
    exactly [k] calls, those for items 1..k, so items k+1..N were never
    processed. *)
Theorem failed_model_call_aborts_batch ctxs log r calls k input e :
  handle ctxs log = (r, log ++ calls) ->
  1 <= k ->
  nth_error calls (k - 1) = Some (input, inl e) ->
  r = inl (HTTPException 502 ("LLM call failed: " ++ exc_str e)) /\
  (forall body, validate_body body = Valid ctxs ->
     post body log =
       (ErrorResponse 502 ("LLM call failed: " ++ exc_str e), log ++ calls)) /\
  (forall results, r <> inr results) /\
  k <= List.length ctxs /\
  List.length calls = k /\
  map fst calls = map input_of (firstn k ctxs).
Proof.
  intros Hrun Hk Hnth.
  pose proof (run_trace _ _ _ _ Hrun) as Htr.
  destruct (trace_failed_call _ _ _ _ Htr _ _ _ Hnth) as [-> Hlen].
  destruct (trace_inputs _ _ _ _ Htr) as [Hle Hin].
  assert (Hk' : List.length calls = k) by lia.
  rewrite Hk' in Hle, Hin.
  repeat split; try assumption.
  - intros body Hbody. unfold post_assess. rewrite Hbody, Hrun. reflexivity.
  - intros results Hres. discriminate Hres.
Qed.

(** C2.  In a batch of N valid items in which every model call succeeded
    and returned a JSON object, the handler returns a list of exactly N
    result objects; the [i]-th one echoes the metadata of the [i]-th
    item, so the order is the input's; and the [code] of every result is
    the empty string. *)
Theorem successful_batch_results ctxs log r calls :
  handle ctxs log = (r, log ++ calls) ->
  Forall (fun c => exists d, snd c = inr (VDict d)) calls ->
  exists results,
    r = inr results /\
    List.length results = List.length ctxs /\
    (forall i ctx, nth_error ctxs i = Some ctx ->
       exists fields,
         nth_error results i = Some (VDict fields) /\
         dict_find "pgm_name" fields = Some (of_optional (pgm_name ctx)) /\
         dict_find "inc_name" fields = Some (of_optional (inc_name ctx)) /\
         dict_find "type" fields = Some (of_optional (type ctx)) /\
         dict_find "name" fields = Some (of_optional (name ctx))) /\
    Forall (fun res => exists fields,
              res = VDict fields /\ dict_find "code" fields = Some (VStr ""))
           results.
Proof.
  intros Hrun Hall.
  pose proof (run_trace _ _ _ _ Hrun) as Htr.
  destruct (trace_all_dicts _ _ _ _ Htr Hall) as [results ->].
  destruct (trace_returned _ _ _ _ Htr _ eq_refl)
    as (new & Hnew & Hlen & _ & Hitems).
  cbn [app] in Hnew. subst new.
  exists results. repeat split; try assumption.
  - intros i ctx Hnth.
    destruct (Hitems i ctx Hnth) as (d & a & p & _ & _ & _ & Hres).
    eexists. split; [exact Hres|]. repeat split.
  - apply Forall_forall. intros res Hin.
    destruct (In_nth_error _ _ Hin) as [i Hi].
    assert (Hlt : i < List.length ctxs).
    { rewrite <- Hlen. apply nth_error_Some. congruence. }
    destruct (nth_error ctxs i) as [ctx|] eqn:Hctx;
      [| apply nth_error_None in Hctx; lia].
    destruct (Hitems i ctx Hctx) as (d & a & p & _ & _ & _ & Hres).
    rewrite Hres in Hi. injection Hi as <-.
    eexists. split; reflexivity.
Qed.

(** C8.  When the handler returns, the result of an item whose model call
    returned the JSON object [d] echoes the item's [pgm_name],
    [inc_name], [type] and [name]; its [assessment] and [llm_prompt] are
    the values of [d] under those keys, and the empty string for a key
    that [d] does not have. *)
Theorem result_built_from_item_and_reply ctxs log results calls i ctx input d :
  handle ctxs log = (inr results, log ++ calls) ->
  nth_error ctxs i = Some ctx ->
  nth_error calls i = Some (input, inr (VDict d)) ->
  exists fields,
    nth_error results i = Some (VDict fields) /\
    dict_find "pgm_name" fields = Some (of_optional (pgm_name ctx)) /\
    dict_find "inc_name" fields = Some (of_optional (inc_name ctx)) /\
    dict_find "type" fields = Some (of_optional (type ctx)) /\
    dict_find "name" fields = Some (of_optional (name ctx)) /\
    dict_find "assessment" fields =
      Some (match dict_find "assessment" d with
            | Some x => x
            | None => VStr ""
            end) /\
    dict_find "llm_prompt" fields =
      Some (match dict_find "llm_prompt" d with
            | Some x => x
            | None => VStr ""
            end).
Proof.
  intros Hrun Hctx Hcall.
  pose proof (run_trace _ _ _ _ Hrun) as Htr.
  destruct (trace_returned _ _ _ _ Htr _ eq_refl)
    as (new & Hnew & _ & _ & Hitems).
  cbn [app] in Hnew. subst new.
  destruct (Hitems i ctx Hctx) as (d' & a & p & Hcall' & Ha & Hp & Hres).
  rewrite Hcall in Hcall'. injection Hcall' as _ <-.
  cbn [py_get] in Ha, Hp. injection Ha as <-. injection Hp as <-.
  eexists. split; [exact Hres|]. repeat split.
Qed.

(** C10.  When the model's reply to a call parsed as JSON but is not a
    JSON object, reading [assessment] and [llm_prompt] from it fails
    outside the [try] that guards the model call: the request ends with
    the [AttributeError] itself, not with the 502 error response, and no
    further item is processed. *)
Theorem non_object_reply_escapes_guard ctxs log r calls i input v :
  handle ctxs log = (r, log ++ calls) ->
  nth_error calls i = Some (input, inr v) ->
  (forall d, v <> VDict d) ->
  r = inl (Uncaught (AttributeError_get v)) /\
  (forall body, validate_body body = Valid ctxs ->
     post body log = (InternalServerError500 (AttributeError_get v), log ++ calls)) /\
  (forall detail, r <> inl (HTTPException 502 detail)) /\
  List.length calls = S i.
Proof.
  intros Hrun Hnth Hv.
  pose proof (run_trace _ _ _ _ Hrun) as Htr.
  destruct (trace_reply_without_get _ _ _ _ Htr _ _ _ Hnth Hv) as [-> Hlen].
  repeat split; try assumption.
  - intros body Hbody. unfold post_assess. rewrite Hbody, Hrun. reflexivity.
  - intros detail Hd. discriminate Hd.
Qed.

(** An item alone in a batch costs exactly one call, whatever the model
    answers. *)
Lemma single_item_one_call ctx log :
  snd (handle [ctx] log) =
    log ++ [(input_of ctx, chain_invoke log (input_of ctx))].
Proof.
  unfold assess_note_context.
  destruct (chain_invoke log (input_of ctx)) as [e|v] eqn:Hc.
  - rewrite (assess_loop_call_failed _ [] [] _ _ Hc). reflexivity.
  - assert (Hd : (exists d, v = VDict d) \/ (forall d, v <> VDict d)).
    { destruct v; try (right; intros d0 Hd0; discriminate Hd0).
      left. eexists. reflexivity. }
    destruct Hd as [[d ->] | Hv].
    + destruct (assess_loop_append _ [] [] _ _ Hc) as (a & p & _ & _ & ->).
      reflexivity.
    + rewrite (assess_loop_no_get _ [] [] _ _ Hc Hv). reflexivity.
Qed.

(** On a valid body the calls of the endpoint are the handler's. *)
Lemma post_valid_log body ctxs log :
  validate_body body = Valid ctxs ->
  snd (post body log) = snd (handle ctxs log).
Proof.
  intros Hbody. unfold post_assess. rewrite Hbody.
  destruct (handle ctxs log) as [[x|results] log']; reflexivity.
Qed.

(** On a valid body whose handler returned, the answer is the 200 with
    the list of results when that list renders as JSON, and the 500 of
    the rendering otherwise. *)
Lemma returned_batch_response body ctxs log results log' :
  validate_body body = Valid ctxs ->
  handle ctxs log = (inr results, log') ->
  post body log =
    (if json_compliant (VList results) then Response200 (VList results)
     else InternalServerError500 ValueError_not_compliant,
     log').
Proof.
  intros Hbody Hrun. unfold post_assess. rewrite Hbody, Hrun. reflexivity.
Qed.

Lemma optional_str_or_absent_valid k d :
  optional_str_or_absent k d = true ->
  exists o, defaulted validate_optional_str k None d = Valid o.
Proof.
  unfold optional_str_or_absent, defaulted.
  destruct (dict_find k d) as [[]|]; intros H; try discriminate H;
    eexists; reflexivity.
Qed.

(** C7.  A raw record whose [cm_obj_usage] is absent or the empty list
    (its metadata being absent, null or strings) validates, to a context
    without usages; and for every context without usages the summary's
    [cm_obj_usage] is the empty list and the item, alone in a batch, is
    processed with exactly one model call. *)
Theorem empty_usage_context_processed d :
  (forall k, In k ["pgm_name"; "inc_name"; "type"; "name"] ->
     optional_str_or_absent k d = true) ->
  dict_find "cm_obj_usage" d = None \/
  dict_find "cm_obj_usage" d = Some (VList []) ->
  (exists ctx,
     validate_NoteContext (VDict d) = Valid ctx /\
     validate_body (VList [VDict d]) = Valid [ctx] /\
     cm_obj_usage ctx = [] /\
     forall log,
       snd (post (VList [VDict d]) log) =
         log ++ [(input_of ctx, chain_invoke log (input_of ctx))]) /\
  (forall ctx,
     cm_obj_usage ctx = [] ->
     py_get (summarize_context ctx) "cm_obj_usage" VNone = inr (VList []) /\
     forall log,
       snd (handle [ctx] log) =
         log ++ [(input_of ctx, chain_invoke log (input_of ctx))]).
Proof.
  intros Hmeta Husage. split.
  - destruct (optional_str_or_absent_valid "pgm_name" d) as [o1 H1];
      [apply Hmeta; cbn; tauto|].
    destruct (optional_str_or_absent_valid "inc_name" d) as [o2 H2];
      [apply Hmeta; cbn; tauto|].
    destruct (optional_str_or_absent_valid "type" d) as [o3 H3];
      [apply Hmeta; cbn; tauto|].
    destruct (optional_str_or_absent_valid "name" d) as [o4 H4];
      [apply Hmeta; cbn; tauto|].
    assert (H5 : defaulted (validate_list validate_SelectItem) "cm_obj_usage" [] d
                 = Valid []).
    { unfold defaulted. destruct Husage as [-> | ->]; reflexivity. }
    assert (Hv : validate_NoteContext (VDict d) = Valid (mkNoteContext o1 o2 o3 o4 [])).
    { cbn [validate_NoteContext]. rewrite H1, H2, H3, H4, H5. reflexivity. }
    assert (Hb : validate_body (VList [VDict d]) = Valid [mkNoteContext o1 o2 o3 o4 []]).
    { unfold validate_body, validate_list. cbn [validate_items].
      rewrite Hv. reflexivity. }
    exists (mkNoteContext o1 o2 o3 o4 []).
    repeat split; try assumption.
    intros log. rewrite (post_valid_log _ _ log Hb).
    apply single_item_one_call.
  - intros ctx Hempty. split.
    + cbn. rewrite Hempty. reflexivity.
    + intros log. apply single_item_one_call.
Qed.

(** ** Requests that fail validation *)

(** The handler does not run on a body that failed validation: the log
    is as before, and the answer is the 422 or, after a crash in a
    validator or in the rendering of the 422, the 500. *)
Lemma rejected_body_makes_no_call body log :
  (forall ctxs, validate_body body <> Valid ctxs) ->
  snd (post body log) = log /\
  (fst (post body log) = ValidationError422 \/
   exists e, fst (post body log) = InternalServerError500 e).
Proof.
  intros Hbad. unfold post_assess.
  destruct (validate_body body) as [ctxs| |e].
  - exfalso. exact (Hbad ctxs eq_refl).
  - split; [reflexivity|]. cbn [fst].
    destruct (forallb json_compliant (body_errors body));
      [left; reflexivity | right; eexists; reflexivity].
  - split; [reflexivity | right; eexists; reflexivity].
Qed.

Lemma Forall2_In_left {A B : Type} (R : A -> B -> Prop) l l' x :
  Forall2 R l l' -> In x l -> exists y, R x y.
Proof.
  induction 1 as [|a b l l' Hab _ IH]; intros Hin; [destruct Hin|].
  destruct Hin as [<- | Hin]; [exists b; exact Hab | exact (IH Hin)].
Qed.

(** A usage object without one of its five required keys is never
    accepted, wherever it sits in the body; such a request makes no
    model call. *)
Lemma missing_required_field_rejected records rd usages ud k log :
  In (VDict rd) records ->
  dict_find "cm_obj_usage" rd = Some (VList usages) ->
  In (VDict ud) usages ->
  In k ["table"; "target_type"; "target_name"; "used_fields"; "suggested_fields"] ->
  dict_find k ud = None ->
  (forall ctxs, validate_body (VList records) <> Valid ctxs) /\
  snd (post (VList records) log) = log.
Proof.
  intros Hrec Husages Hud Hk Hmissing.
  assert (Hbad : forall ctxs, validate_body (VList records) <> Valid ctxs).
  { intros ctxs Hv. unfold validate_body, validate_list in Hv.
    apply validate_items_valid in Hv.
    destruct (Forall2_In_left _ _ _ _ Hv Hrec) as [ctx Hctx].
    cbn [validate_NoteContext] in Hctx.
    apply vap_valid in Hctx as (g & us & _ & Hus & _).
    unfold defaulted in Hus. rewrite Husages in Hus.
    unfold validate_list in Hus. apply validate_items_valid in Hus.
    destruct (Forall2_In_left _ _ _ _ Hus Hud) as [item Hitem].
    destruct (validate_SelectItem_valid _ _ Hitem)
      as (d & ru & rs & Hd & F1 & F2 & F3 & F4 & _ & F5 & _).
    injection Hd as <-.
    cbn [In] in Hk.
    destruct Hk as [<-|[<-|[<-|[<-|[<-|[]]]]]]; congruence. }
  split; [exact Hbad | exact (proj1 (rejected_body_makes_no_call _ log Hbad))].
Qed.

(** C4.  A request whose usage object omits [table] and carries
    [used_fields: null] is not answered with the 422: [no_none] raises a
    [TypeError] while iterating over [None], and the request ends with
    that exception (no model call is made).  The same happens when the
    [null] sits in a usage before the one without [table].  A usage that
    only omits [table] is answered with the 422. *)
Theorem missing_table_null_fields_not_422 log :
  validate_body (raw_request [raw_usage None VNone]) =
    Crashed (PyExc "TypeError" "'NoneType' object is not iterable") /\
  post (raw_request [raw_usage None VNone]) log =
    (InternalServerError500 (PyExc "TypeError" "'NoneType' object is not iterable"),
     log) /\
  post (raw_request [raw_usage (Some (VStr "S066")) VNone;
                     raw_usage None (VList [VStr "KUNNR"])]) log =
    (InternalServerError500 (PyExc "TypeError" "'NoneType' object is not iterable"),
     log) /\
  post (raw_request [raw_usage None (VList [VStr "KUNNR"])]) log =
    (ValidationError422, log).
Proof. repeat split. Qed.

(** C5.  Records of the wrong type that are accepted or that do not end
    in a client error: a JSON object or a JSON string for [used_fields]
    is taken as the list of its keys or of its characters, a list with
    non-string entries that are falsy is taken without them, and the
    model is called; a number for [used_fields] ends the request with
    the [TypeError] of [no_none], which is not a client error. *)
Theorem wrong_type_fields_accepted log :
  validate_body (raw_request [raw_usage (Some (VStr "S066")) (VDict [("KUNNR", VInt 1)])])
    = Valid [checked_ctx ["KUNNR"]] /\
  snd (post (raw_request [raw_usage (Some (VStr "S066")) (VDict [("KUNNR", VInt 1)])]) log)
    = log ++ [(input_of (checked_ctx ["KUNNR"]),
               chain_invoke log (input_of (checked_ctx ["KUNNR"])))] /\
  validate_body (raw_request [raw_usage (Some (VStr "S066")) (VStr "AB")])
    = Valid [checked_ctx ["A"; "B"]] /\
  validate_body
    (raw_request [raw_usage (Some (VStr "S066")) (VList [VInt 0; VBool false; VStr "KUNNR"])])
    = Valid [checked_ctx ["KUNNR"]] /\
  post (raw_request [raw_usage (Some (VStr "S066")) (VInt 7)]) log =
    (InternalServerError500 (PyExc "TypeError" "'int' object is not iterable"), log) /\
  post (raw_request [raw_usage (Some (VStr "S066")) (VList [VInt 7])]) log =
    (ValidationError422, log).
Proof.
  repeat split.
  rewrite (post_valid_log
             (raw_request [raw_usage (Some (VStr "S066")) (VDict [("KUNNR", VInt 1)])])
             [checked_ctx ["KUNNR"]] log eq_refl).
  apply single_item_one_call.
Qed.

(** ** Health *)

Lemma serve_app reqs1 reqs2 log :
  serve getenv json_dumps chain_invoke (reqs1 ++ reqs2) log =
    (fst (serve getenv json_dumps chain_invoke reqs1 log) ++
     fst (serve getenv json_dumps chain_invoke reqs2
            (snd (serve getenv json_dumps chain_invoke reqs1 log))),
     snd (serve getenv json_dumps chain_invoke reqs2
            (snd (serve getenv json_dumps chain_invoke reqs1 log)))).
Proof.
  revert log. induction reqs1 as [|req reqs1 IH]; intros log.
  - cbn. destruct (serve getenv json_dumps chain_invoke reqs2 log). reflexivity.
  - cbn [app serve].
    destruct (serve1 getenv json_dumps chain_invoke req log) as [resp log1].
    rewrite IH.
    destruct (serve getenv json_dumps chain_invoke reqs1 log1) as [resps log2].
    reflexivity.
Qed.

(** C9.  [GET /health] answers with the object of [ok] true and the
    configured model identifier and leaves the call log as it is, in
    every state of the log; so also after any run of earlier requests,
    whatever their outcomes. *)
Theorem health_reports_model log reqs :
  get_health getenv log =
    (Response200 (VDict [("ok", VBool true); ("model", VStr (OPENAI_MODEL getenv))]),
     log) /\
  serve getenv json_dumps chain_invoke (reqs ++ [GET_health]) log =
    (fst (serve getenv json_dumps chain_invoke reqs log) ++
       [Response200 (VDict [("ok", VBool true); ("model", VStr (OPENAI_MODEL getenv))])],
     snd (serve getenv json_dumps chain_invoke reqs log)).
Proof.
  split; [reflexivity|].
  rewrite serve_app. reflexivity.
Qed.

End Properties.

(** * The theorems at work on the stand-ins *)

Lemma failed_model_call_aborts_batch_witness :
  fst (assess_note_context dumps_stub chain_fail_second three_units []) =
    inl (HTTPException 502 "LLM call failed: Connection error.") /\
  List.length (snd (assess_note_context dumps_stub chain_fail_second three_units [])) = 2.
Proof.
  edestruct (failed_model_call_aborts_batch dumps_stub chain_fail_second three_units []
               (fst (assess_note_context dumps_stub chain_fail_second three_units []))
               (snd (assess_note_context dumps_stub chain_fail_second three_units [])) 2)
    as (Hr & _ & _ & _ & Hlen & _);
    [ reflexivity | lia | reflexivity | ].
  split; [exact Hr | exact Hlen].
Defined.

Lemma successful_batch_results_witness :
  exists results,
    fst (assess_note_context dumps_stub chain_ok three_units []) = inr results /\
    List.length results = 3.
Proof.
  edestruct (successful_batch_results dumps_stub chain_ok three_units [])
    as (results & Hr & Hlen & _);
    [ reflexivity
    | repeat constructor; eexists; reflexivity
    | ].
  exists results. split; [exact Hr | exact Hlen].
Defined.

Lemma result_built_from_item_and_reply_witness :
  exists results fields,
    fst (assess_note_context dumps_stub chain_ok three_units []) = inr results /\
    nth_error results 1 = Some (VDict fields) /\
    dict_find "name" fields = Some (VStr "B") /\
    dict_find "assessment" fields = Some (VStr "obsolete").
Proof.
  edestruct (result_built_from_item_and_reply dumps_stub chain_ok three_units []
               (match fst (assess_note_context dumps_stub chain_ok three_units []) with
                | inr results => results
                | inl _ => []
                end)
               (snd (assess_note_context dumps_stub chain_ok three_units [])) 1)
    as (fields & Hres & _ & _ & _ & Hname & Hassess & _);
    [ reflexivity | reflexivity | reflexivity | ].
  eexists. exists fields.
  split; [reflexivity|]. split; [exact Hres|]. split; [exact Hname | exact Hassess].
Defined.

Lemma non_object_reply_escapes_guard_witness :
  fst (assess_note_context dumps_stub chain_array_second three_units []) =
    inl (Uncaught (PyExc "AttributeError" "'list' object has no attribute 'get'")) /\
  List.length (snd (assess_note_context dumps_stub chain_array_second three_units [])) = 2.
Proof.
  edestruct (non_object_reply_escapes_guard dumps_stub chain_array_second three_units []
               (fst (assess_note_context dumps_stub chain_array_second three_units []))
               (snd (assess_note_context dumps_stub chain_array_second three_units [])) 1)
    as (Hr & _ & _ & Hlen);
    [ reflexivity | reflexivity | intros d Hd; discriminate Hd | ].
  split; [exact Hr | exact Hlen].
Defined.

Lemma validated_fields_are_filtered_witness :
  ~ In "" ["KUNNR"] /\
  no_none (VList [VStr "KUNNR"; VStr ""; VNone]) = inr [VStr "KUNNR"].
Proof.
  destruct (validated_fields_are_filtered
              (raw_usage (Some (VStr "S066")) (VList [VStr "KUNNR"; VStr ""; VNone]))
              (mkSelectItem "S066" "TABLE" "S066" ["KUNNR"] ["UKM_ITEM"] None)
              eq_refl)
    as ((Hused & _) & _).
  split; [exact Hused | reflexivity].
Defined.

Lemma summarize_context_deterministic_witness :
  summarize_context (unit_ctx "A") = summarize_context (unit_ctx "A") /\
  exists usages,
    py_get (summarize_context (unit_ctx "A")) "cm_obj_usage" VNone = inr (VList usages) /\
    List.length usages = 0.
Proof.
  exact (summarize_context_deterministic (unit_ctx "A") (unit_ctx "A") eq_refl).
Defined.

Lemma empty_usage_context_processed_witness :
  exists ctx,
    validate_NoteContext (VDict [("pgm_name", VStr "Z_CM"); ("cm_obj_usage", VList [])])
      = Valid ctx /\
    cm_obj_usage ctx = [].
Proof.
  destruct (empty_usage_context_processed dumps_stub chain_ok
              [("pgm_name", VStr "Z_CM"); ("cm_obj_usage", VList [])])
    as ((ctx & Hvalid & _ & Hempty & _) & _).
  - intros k [<-|[<-|[<-|[<-|[]]]]]; reflexivity.
  - right. reflexivity.
  - exists ctx. split; [exact Hvalid | exact Hempty].
Defined.

(** * Further properties *)

(** ** The field filter and the two input models *)

Lemma validate_items_map_VStr l :
  validate_items validate_str (map VStr l) = Valid l.
Proof.
  induction l as [|s l IH]; [reflexivity|].
  cbn [map validate_items validate_str]. rewrite IH. reflexivity.
Qed.

Lemma filter_truthy_strings l :
  ~ In "" l -> filter truthy (map VStr l) = map VStr l.
Proof.
  induction l as [|s l IH]; intros Hno; [reflexivity|].
  cbn [map filter truthy].
  destruct (String.eqb_spec s "") as [->|Hs].
  - exfalso. apply Hno. left. reflexivity.
  - cbn [negb]. rewrite IH; [reflexivity|].
    intros Hin. apply Hno. right. exact Hin.
Qed.

Lemma filter_truthy_of_optional l :
  filter truthy (map of_optional l) = map VStr (kept_strings l).
Proof.
  induction l as [|[s|] l IH]; [reflexivity| |exact IH].
  cbn [map of_optional filter truthy kept_strings].
  destruct (String.eqb s ""); cbn [negb]; [exact IH|].
  cbn [map]. rewrite IH. reflexivity.
Qed.

(** X1.  A raw [used_fields] or [suggested_fields] value is accepted
    exactly when it can be iterated over and each of its truthy items is a
    string; the validated list is then those strings, in the order of the
    iteration. *)
Theorem validate_fields_accepts_iff raw l :
  validate_fields raw = Valid l <->
  exists items, py_iter raw = inr items /\ filter truthy items = map VStr l.
Proof.
  split.
  - intros H. apply validate_fields_valid in H. unfold no_none in H.
    destruct (py_iter raw) as [e|items]; [discriminate H|].
    injection H as H. exists items. split; [reflexivity | exact H].
  - intros (items & Hiter & Hkeep).
    unfold validate_fields, no_none. rewrite Hiter, Hkeep.
    cbn [validate_list]. apply validate_items_map_VStr.
Qed.

Lemma validate_fields_accepts_iff_witness :
  validate_fields (VStr "AB") = Valid ["A"; "B"].
Proof.
  apply (proj2 (validate_fields_accepts_iff (VStr "AB") ["A"; "B"])).
  eexists. split; reflexivity.
Defined.

(** X2.  A list of strings and nulls, the input the filter is written
    for, is always accepted, and validates to its non-empty strings in
    their order: nothing else is dropped and nothing is reordered. *)
Theorem strings_and_nulls_validate (l : list (option string)) :
  validate_fields (VList (map of_optional l)) = Valid (kept_strings l) /\
  List.length (kept_strings l) <= List.length l /\
  (forall s, In s (kept_strings l) <-> In (Some s) l /\ s <> "").
Proof.
  split; [|split].
  - unfold validate_fields, no_none. cbn [py_iter].
    rewrite filter_truthy_of_optional. cbn [validate_list].
    apply validate_items_map_VStr.
  - induction l as [|[s|] l IH]; cbn [kept_strings List.length]; [lia| |lia].
    destruct (String.eqb s ""); cbn [List.length]; lia.
  - intros s. induction l as [|[t|] l IH]; cbn [kept_strings In].
    + split; [intros [] | intros [[] _]].
    + destruct (String.eqb_spec t "") as [->|Ht].
      * rewrite IH. split.
        -- intros [Hin Hs]. split; [right; exact Hin | exact Hs].
        -- intros [[Heq|Hin] Hs]; [injection Heq as <-; contradiction|].
           split; assumption.
      * cbn [In]. rewrite IH. split.
        -- intros [<-|[Hin Hs]]; [split; [left; reflexivity | exact Ht]|].
           split; [right; exact Hin | exact Hs].
        -- intros [[Heq|Hin] Hs]; [left; congruence | right; split; assumption].
    + rewrite IH. split.
      * intros [Hin Hs]. split; [right; exact Hin | exact Hs].
      * intros [[Heq|Hin] Hs]; [discriminate Heq | split; assumption].
Qed.

Lemma of_optional_option o :
  validate_optional_str (of_optional o) = Valid o.
Proof. destruct o; reflexivity. Qed.

(** The dump of a usage without empty field names validates to it. *)
Lemma model_dump_valid item :
  ~ In "" (used_fields item) ->
  ~ In "" (suggested_fields item) ->
  validate_SelectItem (model_dump item) = Valid item.
Proof.
  intros Hu Hs. destruct item as [tb tt tn uf sf st].
  cbn [used_fields suggested_fields] in Hu, Hs.
  unfold model_dump, validate_SelectItem, required, defaulted.
  cbn [table target_type target_name used_fields suggested_fields
       suggested_statement dict_find String.eqb Ascii.eqb Bool.eqb validate_str].
  unfold validate_fields, no_none. cbn [py_iter].
  rewrite (filter_truthy_strings _ Hu), (filter_truthy_strings _ Hs).
  cbn [validate_list]. rewrite !validate_items_map_VStr, of_optional_option.
  reflexivity.
Qed.

(** X3.  Round trip: a validated usage, dumped by [model_dump] as the
    summarizer does, validates again, and to the same usage. *)
Theorem validated_usage_round_trip v item :
  validate_SelectItem v = Valid item ->
  validate_SelectItem (model_dump item) = Valid item.
Proof.
  intros H.
  destruct (validate_SelectItem_valid _ _ H)
    as (d & ru & rs & _ & _ & _ & _ & _ & Vu & _ & Vs).
  apply validate_fields_valid in Vu, Vs.
  apply model_dump_valid; apply truthy_strings_nonempty;
    eapply no_none_truthy; eassumption.
Qed.

Lemma validated_usage_round_trip_witness :
  validate_SelectItem
    (model_dump (mkSelectItem "S066" "TABLE" "S066" ["KUNNR"] ["UKM_ITEM"] None))
  = Valid (mkSelectItem "S066" "TABLE" "S066" ["KUNNR"] ["UKM_ITEM"] None).
Proof.
  exact (validated_usage_round_trip
           (raw_usage (Some (VStr "S066")) (VList [VStr "KUNNR"; VStr ""; VNone]))
           (mkSelectItem "S066" "TABLE" "S066" ["KUNNR"] ["UKM_ITEM"] None)
           eq_refl).
Defined.

Lemma validate_items_of_Forall2 {A : Type} (validate : pyval -> validated A) items l :
  Forall2 (fun raw a => validate raw = Valid a) items l ->
  validate_items validate items = Valid l.
Proof.
  induction 1 as [|raw a items l Ha _ IH]; [reflexivity|].
  cbn [validate_items]. rewrite Ha, IH. reflexivity.
Qed.

(** X4.  A body is valid exactly when it is a list each of whose records
    is valid on its own; the validated batch has one context per record,
    in the order of the body. *)
Theorem body_valid_recordwise body ctxs :
  validate_body body = Valid ctxs <->
  exists records,
    body = VList records /\
    Forall2 (fun record ctx => validate_NoteContext record = Valid ctx) records ctxs.
Proof.
  unfold validate_body. split.
  - destruct body as [| | | | |records|]; cbn [validate_list]; intros H;
      try discriminate H.
    exists records. split; [reflexivity | exact (validate_items_valid _ _ _ H)].
  - intros (records & -> & H). cbn [validate_list].
    exact (validate_items_of_Forall2 _ _ _ H).
Qed.

Lemma body_valid_recordwise_witness :
  exists records,
    example_request = VList records /\ List.length records = 1.
Proof.
  destruct (proj1 (body_valid_recordwise example_request
                     [ mkNoteContext (Some "Z_CM") (Some "Z_CM_I01") (Some "FORM")
                         (Some "CHECK_CREDIT")
                         [ mkSelectItem "S066" "TABLE" "S066" ["KUNNR"] ["UKM_ITEM"] None ] ])
                  eq_refl)
    as (records & Hbody & Hall).
  exists records. split; [exact Hbody|].
  exact (Forall2_length Hall).
Defined.

(** *** Crashes *)

Lemma vap_crashed {A B : Type} (f : validated (A -> B)) (x : validated A) e :
  f <*> x = Crashed e -> f = Crashed e \/ x = Crashed e.
Proof.
  destruct f as [g| |e1], x as [a| |e2]; cbn; intros H; try discriminate H;
    injection H as <-; auto.
Qed.

Lemma validate_items_crashed {A : Type} (validate : pyval -> validated A) items e :
  validate_items validate items = Crashed e ->
  exists raw, In raw items /\ validate raw = Crashed e.
Proof.
  induction items as [|x items IH]; cbn [validate_items]; intros H;
    [discriminate H|].
  apply vap_crashed in H as [H|H].
  - apply vap_crashed in H as [H|H]; [discriminate H|].
    exists x. split; [left; reflexivity | exact H].
  - destruct (IH H) as (raw & Hin & Hraw).
    exists raw. split; [right; exact Hin | exact Hraw].
Qed.

Lemma required_crashed {A : Type} (validate : pyval -> validated A) k d e :
  required validate k d = Crashed e -> exists raw, validate raw = Crashed e.
Proof.
  unfold required. destruct (dict_find k d) as [raw|]; [|discriminate].
  intros H. exists raw. exact H.
Qed.

Lemma defaulted_crashed {A : Type} (validate : pyval -> validated A) k dflt d e :
  defaulted validate k dflt d = Crashed e -> exists raw, validate raw = Crashed e.
Proof.
  unfold defaulted. destruct (dict_find k d) as [raw|]; [|discriminate].
  intros H. exists raw. exact H.
Qed.

Lemma validate_str_no_crash v e : validate_str v <> Crashed e.
Proof. destruct v; discriminate. Qed.

Lemma validate_optional_str_no_crash v e : validate_optional_str v <> Crashed e.
Proof. destruct v; discriminate. Qed.

Lemma validate_fields_crashed v e :
  validate_fields v = Crashed e ->
  e = TypeError_not_iterable v /\
  In (type_name v) ["NoneType"; "bool"; "int"; "float"].
Proof.
  unfold validate_fields, no_none.
  destruct (py_iter v) as [e'|items] eqn:Hiter.
  - intros H. injection H as <-.
    destruct v; cbn in Hiter; try discriminate Hiter;
      injection Hiter as <-; (split; [reflexivity | cbn; tauto]).
  - cbn [validate_list]. intros H.
    apply validate_items_crashed in H as (raw & _ & Hraw).
    exfalso. exact (validate_str_no_crash _ _ Hraw).
Qed.

Lemma validate_SelectItem_crashed v e :
  validate_SelectItem v = Crashed e ->
  exists raw, validate_fields raw = Crashed e.
Proof.
  destruct v as [| | | | | |d]; cbn [validate_SelectItem]; intros H;
    try discriminate H.
  apply vap_crashed in H as [H|H];
    [| apply defaulted_crashed in H as (raw & H);
       exfalso; exact (validate_optional_str_no_crash _ _ H)].
  apply vap_crashed in H as [H|H]; [| exact (required_crashed _ _ _ _ H)].
  apply vap_crashed in H as [H|H]; [| exact (required_crashed _ _ _ _ H)].
  apply vap_crashed in H as [H|H];
    [| apply required_crashed in H as (raw & H);
       exfalso; exact (validate_str_no_crash _ _ H)].
  apply vap_crashed in H as [H|H];
    [| apply required_crashed in H as (raw & H);
       exfalso; exact (validate_str_no_crash _ _ H)].
  apply vap_crashed in H as [H|H];
    [discriminate H
    | apply required_crashed in H as (raw & H);
      exfalso; exact (validate_str_no_crash _ _ H)].
Qed.

Lemma validate_NoteContext_crashed v e :
  validate_NoteContext v = Crashed e ->
  exists raw, validate_fields raw = Crashed e.
Proof.
  destruct v as [| | | | | |d]; cbn [validate_NoteContext]; intros H;
    try discriminate H.
  apply vap_crashed in H as [H|H].
  - exfalso.
    apply vap_crashed in H as [H|H];
      [| apply defaulted_crashed in H as (raw & H);
         exact (validate_optional_str_no_crash _ _ H)].
    apply vap_crashed in H as [H|H];
      [| apply defaulted_crashed in H as (raw & H);
         exact (validate_optional_str_no_crash _ _ H)].
    apply vap_crashed in H as [H|H];
      [| apply defaulted_crashed in H as (raw & H);
         exact (validate_optional_str_no_crash _ _ H)].
    apply vap_crashed in H as [H|H];
      [discriminate H
      | apply defaulted_crashed in H as (raw & H);
        exact (validate_optional_str_no_crash _ _ H)].
  - apply defaulted_crashed in H as (raw & H).
    destruct raw as [| | | | |usages|]; cbn [validate_list] in H;
      try discriminate H.
    apply validate_items_crashed in H as (usage & _ & H).
    exact (validate_SelectItem_crashed _ _ H).
Qed.

(** X5.  The only exception that can leave the validation of a request
    body is the [TypeError] of [no_none] iterating over a value that is
    [None], a bool, an int or a float; every other malformed body ends in
    the validation error. *)
Theorem validation_crash_is_not_iterable body e :
  validate_body body = Crashed e ->
  exists raw,
    e = TypeError_not_iterable raw /\
    In (type_name raw) ["NoneType"; "bool"; "int"; "float"] /\
    exc_type e = "TypeError".
Proof.
  unfold validate_body. intros H.
  destruct body as [| | | | |records|]; cbn [validate_list] in H;
    try discriminate H.
  apply validate_items_crashed in H as (record & _ & H).
  apply validate_NoteContext_crashed in H as (raw & H).
  apply validate_fields_crashed in H as [-> Hty].
  exists raw. repeat split. exact Hty.
Qed.

Lemma validation_crash_is_not_iterable_witness :
  exists raw,
    PyExc "TypeError" "'NoneType' object is not iterable" = TypeError_not_iterable raw /\
    In (type_name raw) ["NoneType"; "bool"; "int"; "float"].
Proof.
  destruct (validation_crash_is_not_iterable
              (raw_request [raw_usage None VNone])
              (PyExc "TypeError" "'NoneType' object is not iterable")
              eq_refl)
    as (raw & He & Hty & _).
  exists raw. split; [exact He | exact Hty].
Defined.

(** *** Keys the models do not declare *)

Lemma dict_find_skip k k' v d1 d2 :
  k' <> k ->
  dict_find k' (d1 ++ (k, v) :: d2) = dict_find k' (d1 ++ d2).
Proof.
  intros Hk. induction d1 as [|[k1 v1] d1 IH]; cbn [app dict_find].
  - destruct (String.eqb_spec k' k) as [Heq|_]; [contradiction | reflexivity].
  - rewrite IH. reflexivity.
Qed.

(** X6.  A key that is not a field of the model is ignored: wherever it
    stands in a usage object or in a record, validation gives what it
    gives without it. *)
Theorem undeclared_key_ignored k v d1 d2 :
  (~ In k SelectItem_fields ->
   validate_SelectItem (VDict (d1 ++ (k, v) :: d2)) = validate_SelectItem (VDict (d1 ++ d2))) /\
  (~ In k NoteContext_fields ->
   validate_NoteContext (VDict (d1 ++ (k, v) :: d2)) = validate_NoteContext (VDict (d1 ++ d2))).
Proof.
  split; intros Hk.
  - unfold validate_SelectItem, required, defaulted.
    rewrite !(dict_find_skip k _ v d1 d2); [reflexivity | ..];
      intros <-; apply Hk; cbn; tauto.
  - unfold validate_NoteContext, defaulted.
    rewrite !(dict_find_skip k _ v d1 d2); [reflexivity | ..];
      intros <-; apply Hk; cbn; tauto.
Qed.

Lemma undeclared_key_ignored_witness :
  validate_SelectItem
    (VDict [ ("table", VStr "S066"); ("comment", VInt 1); ("target_type", VStr "TABLE");
             ("target_name", VStr "S066"); ("used_fields", VList []);
             ("suggested_fields", VList []) ])
  = Valid (mkSelectItem "S066" "TABLE" "S066" [] [] None).
Proof.
  refine (eq_trans
            (proj1 (undeclared_key_ignored "comment" (VInt 1)
                      [("table", VStr "S066")]
                      [ ("target_type", VStr "TABLE"); ("target_name", VStr "S066");
                        ("used_fields", VList []); ("suggested_fields", VList []) ]) _)
            _).
  - cbn. intros [H|[H|[H|[H|[H|[H|[]]]]]]]; discriminate H.
  - reflexivity.
Defined.

(** X14.  Unlike an absent [cm_obj_usage], which defaults to the empty
    list, one that is present and not a list ([null], a string, an
    object) makes the record invalid. *)
Theorem usage_list_must_be_list d v :
  dict_find "cm_obj_usage" d = Some v ->
  (forall usages, v <> VList usages) ->
  validate_NoteContext (VDict d) = Invalid.
Proof.
  intros Hfind Hv. cbn [validate_NoteContext]. unfold defaulted. rewrite Hfind.
  assert (Hbad : validate_list validate_SelectItem v = Invalid).
  { destruct v; try reflexivity. exfalso. eapply Hv. reflexivity. }
  rewrite Hbad.
  destruct (dict_find "pgm_name" d) as [[]|]; destruct (dict_find "inc_name" d) as [[]|];
    destruct (dict_find "type" d) as [[]|]; destruct (dict_find "name" d) as [[]|];
    reflexivity.
Qed.

Lemma usage_list_must_be_list_witness :
  validate_NoteContext (VDict [("pgm_name", VStr "Z_CM"); ("cm_obj_usage", VNone)]) = Invalid.
Proof.
  apply (usage_list_must_be_list
           [("pgm_name", VStr "Z_CM"); ("cm_obj_usage", VNone)] VNone eq_refl).
  intros usages H. discriminate H.
Defined.

(** ** The summarizer loses nothing *)

Lemma of_optional_inj o1 o2 : of_optional o1 = of_optional o2 -> o1 = o2.
Proof.
  destruct o1, o2; cbn; intros H; try discriminate H; [|reflexivity].
  injection H as ->. reflexivity.
Qed.

Lemma map_VStr_inj l1 l2 : map VStr l1 = map VStr l2 -> l1 = l2.
Proof.
  revert l2. induction l1 as [|s l1 IH]; intros [|t l2] H; try discriminate H;
    [reflexivity|].
  cbn [map] in H. injection H as -> H. rewrite (IH _ H). reflexivity.
Qed.

Lemma model_dump_inj i1 i2 : model_dump i1 = model_dump i2 -> i1 = i2.
Proof.
  destruct i1 as [tb1 tt1 tn1 uf1 sf1 st1], i2 as [tb2 tt2 tn2 uf2 sf2 st2].
  unfold model_dump.
  cbn [table target_type target_name used_fields suggested_fields suggested_statement].
  intros H. injection H as -> -> -> Hu Hs Ht.
  apply map_VStr_inj in Hu, Hs. apply of_optional_inj in Ht.
  subst. reflexivity.
Qed.

Lemma map_model_dump_inj l1 l2 : map model_dump l1 = map model_dump l2 -> l1 = l2.
Proof.
  revert l2. induction l1 as [|i l1 IH]; intros [|j l2] H; try discriminate H;
    [reflexivity|].
  cbn [map] in H.
  pose proof (f_equal (hd (model_dump i)) H) as Hi.
  pose proof (f_equal (@tl pyval) H) as Ht.
  cbn [hd tl] in Hi, Ht.
  rewrite (model_dump_inj _ _ Hi), (IH _ Ht). reflexivity.
Qed.

(** X11.  The summary determines the context: two contexts with the same
    summary are the same context, so nothing of a validated record is
    lost on the way into the prompt. *)
Theorem summarize_context_injective ctx1 ctx2 :
  summarize_context ctx1 = summarize_context ctx2 -> ctx1 = ctx2.
Proof.
  destruct ctx1 as [p1 i1 t1 n1 u1], ctx2 as [p2 i2 t2 n2 u2].
  unfold summarize_context. cbn [pgm_name inc_name type name cm_obj_usage].
  intros H. injection H as Hp Hi Ht Hn Hu.
  apply of_optional_inj in Hp, Hi, Ht, Hn. apply map_model_dump_inj in Hu.
  subst. reflexivity.
Qed.

Lemma summarize_context_injective_witness : unit_ctx "A" = unit_ctx "A".
Proof.
  exact (summarize_context_injective (unit_ctx "A") (unit_ctx "A") eq_refl).
Defined.

(** ** Start-up *)

(** X13.  Loading the module leaves every environment variable as it
    found it, the two API keys included, except [LANGCHAIN_TRACING_V2],
    which it sets to "true" whatever it was; and [OPENAI_MODEL] is the
    variable of that name, "gpt-4o" when it is not set. *)
Theorem startup_only_switches_tracing env k :
  fst (startup env) k =
    (if String.eqb k "LANGCHAIN_TRACING_V2" then Some "true" else env k) /\
  snd (startup env) =
    match env "OPENAI_MODEL" with
    | Some m => m
    | None => "gpt-4o"
    end.
Proof.
  unfold startup, OPENAI_MODEL, setenv. cbn [fst snd]. split.
  - destruct (String.eqb k "LANGCHAIN_TRACING_V2"); [reflexivity|].
    destruct (env "OPENAI_API_KEY") as [ok|] eqn:Ho;
      destruct (env "LANGCHAIN_API_KEY") as [lk|] eqn:Hl;
      try destruct (negb (String.eqb ok "")); try destruct (negb (String.eqb lk ""));
      try reflexivity;
      repeat match goal with
        | |- context [String.eqb k ?c] =>
            destruct (String.eqb_spec k c); [subst k|]
        end; congruence.
  - cbn [String.eqb Ascii.eqb Bool.eqb].
    destruct (env "OPENAI_API_KEY") as [ok|];
      destruct (env "LANGCHAIN_API_KEY") as [lk|];
      try destruct (negb (String.eqb ok "")); try destruct (negb (String.eqb lk ""));
      reflexivity.
Qed.

(** ** The handler and the server *)

Section Runs.

Variable getenv : string -> option string.
Variable json_dumps : pyval -> string.
Variable chain_invoke : call_log -> pyval -> llm_outcome.

Local Abbreviation input_of := (chain_input json_dumps).
Local Abbreviation loop := (assess_loop json_dumps chain_invoke).
Local Abbreviation handle := (assess_note_context json_dumps chain_invoke).
Local Abbreviation post := (post_assess json_dumps chain_invoke).
Local Abbreviation trace := (loop_trace json_dumps).
Local Abbreviation run := (serve getenv json_dumps chain_invoke).

Local Abbreviation result_item ctx assessment llm_prompt :=
  (VDict [ ("pgm_name", of_optional (pgm_name ctx));
           ("inc_name", of_optional (inc_name ctx));
           ("type", of_optional (type ctx));
           ("name", of_optional (name ctx));
           ("code", VStr "");
           ("assessment", assessment);
           ("llm_prompt", llm_prompt) ]).

Lemma reply_dict_or_not (v : pyval) :
  (exists d, v = VDict d) \/ (forall d, v <> VDict d).
Proof.
  destruct v; try (right; intros d0 Hd0; discriminate Hd0).
  left. eexists. reflexivity.
Qed.

(** Each outcome in the log is the answer the chain gave to that input
    after the calls before it. *)
Lemma loop_outcomes_from_chain ctxs : forall results log,
  exists calls,
    snd (loop ctxs results log) = log ++ calls /\
    forall i input out,
      nth_error calls i = Some (input, out) ->
      out = chain_invoke (log ++ firstn i calls) input.
Proof.
  induction ctxs as [|ctx rest IH]; intros results log.
  - exists []. cbn. rewrite app_nil_r. split; [reflexivity|].
    intros [|i] input out H; discriminate H.
  - assert (Hone : forall out, out = chain_invoke log (input_of ctx) ->
              forall i input out',
                nth_error [(input_of ctx, out)] i = Some (input, out') ->
                out' = chain_invoke (log ++ firstn i [(input_of ctx, out)]) input).
    { intros out Hout [|[|i]] input out' H; try discriminate H.
      injection H as <- <-. cbn [firstn]. rewrite app_nil_r. exact Hout. }
    destruct (chain_invoke log (input_of ctx)) as [e|v] eqn:Hc.
    + rewrite (assess_loop_call_failed _ _ _ rest results _ _ Hc).
      eexists. split; [reflexivity | apply Hone; reflexivity].
    + destruct (reply_dict_or_not v) as [[d ->] | Hv].
      * destruct (assess_loop_append _ _ _ rest results _ _ Hc)
          as (a & p & _ & _ & ->).
        match goal with
        | |- context [assess_loop _ _ rest ?rs ?lg] =>
            destruct (IH rs lg) as (calls & Hlog & Hout)
        end.
        exists ((input_of ctx, inr (VDict d)) :: calls). split.
        -- rewrite Hlog, <- app_assoc. reflexivity.
        -- intros [|i] input out H.
           ++ injection H as <- <-. cbn [firstn]. rewrite app_nil_r.
              symmetry. exact Hc.
           ++ cbn [nth_error] in H. rewrite (Hout _ _ _ H).
              cbn [firstn]. rewrite <- app_assoc. reflexivity.
      * rewrite (assess_loop_no_get _ _ _ rest results _ _ Hc Hv).
        eexists. split; [reflexivity | apply Hone; reflexivity].
Qed.

(** X7.  Whatever the model answers, the handler only appends to the
    call log, makes at most one call per item (so it never retries),
    makes the calls in the order of the items, each with the input built
    from its item, and records for each call the outcome the chain gave
    at that moment. *)
Theorem handler_call_discipline ctxs log :
  exists calls,
    snd (assess_note_context json_dumps chain_invoke ctxs log) = log ++ calls /\
    List.length calls <= List.length ctxs /\
    map fst calls = map (chain_input json_dumps) (firstn (List.length calls) ctxs) /\
    forall i input out,
      nth_error calls i = Some (input, out) ->
      out = chain_invoke (log ++ firstn i calls) input.
Proof.
  unfold assess_note_context.
  destruct (assess_loop_trace json_dumps chain_invoke ctxs [] log)
    as (calls & Hlog & Htr).
  destruct (loop_outcomes_from_chain ctxs [] log) as (calls' & Hlog' & Hout).
  rewrite Hlog in Hlog'. apply app_inv_head in Hlog'. subst calls'.
  destruct (trace_inputs json_dumps _ _ _ _ Htr) as [Hlen Hin].
  exists calls. repeat split; assumption.
Qed.

(** How a trace ends, and what came before its end. *)
Lemma trace_shape ctxs results calls r :
  trace ctxs results calls r ->
  match r with
  | inr _ => Forall dict_reply calls /\ List.length calls = List.length ctxs
  | inl (HTTPException status_code detail) =>
      exists earlier input e,
        calls = earlier ++ [(input, inl e)] /\
        Forall dict_reply earlier /\
        status_code = 502 /\
        detail = ("LLM call failed: " ++ exc_str e)%string
  | inl (Uncaught x) =>
      exists earlier input v,
        calls = earlier ++ [(input, inr v)] /\
        Forall dict_reply earlier /\
        (forall d, v <> VDict d) /\
        x = AttributeError_get v
  end.
Proof.
  induction 1 as [results | ctx rest results e0 | ctx rest results v0 Hv0
                 | ctx rest results d a p calls r Ha Hp Htr IH].
  - split; [constructor | reflexivity].
  - exists [], (input_of ctx), e0. repeat split. constructor.
  - exists [], (input_of ctx), v0. repeat split; [constructor | exact Hv0].
  - assert (Hd : dict_reply (input_of ctx, inr (VDict d))).
    { exists d. reflexivity. }
    destruct r as [[status_code detail | x] | rs].
    + destruct IH as (earlier & input & e & -> & Hall & Hs & Hdt).
      exists ((input_of ctx, inr (VDict d)) :: earlier), input, e.
      repeat split; try assumption. constructor; assumption.
    + destruct IH as (earlier & input & v & -> & Hall & Hv & Hx).
      exists ((input_of ctx, inr (VDict d)) :: earlier), input, v.
      repeat split; try assumption. constructor; assumption.
    + destruct IH as [Hall Hlen]. split; [constructor; assumption|].
      cbn [List.length]. rewrite Hlen. reflexivity.
Qed.

(** X8.  A run of the handler ends in one of three ways only.  It returns
    a list: then every call was answered by a JSON object and there was
    one call per item.  Or it raises an [HTTPException]: then the status
    is 502, the last call raised, and the detail is "LLM call failed: "
    followed by that exception's message.  Or the [AttributeError] of
    [.get] leaves it: then the last call was answered by something that is
    not a JSON object.  In the last two cases every earlier call was
    answered by a JSON object. *)
Theorem handler_outcomes ctxs log r calls :
  handle ctxs log = (r, log ++ calls) ->
  match r with
  | inr _ => Forall dict_reply calls /\ List.length calls = List.length ctxs
  | inl (HTTPException status_code detail) =>
      exists earlier input e,
        calls = earlier ++ [(input, inl e)] /\
        Forall dict_reply earlier /\
        status_code = 502 /\
        detail = ("LLM call failed: " ++ exc_str e)%string
  | inl (Uncaught x) =>
      exists earlier input v,
        calls = earlier ++ [(input, inr v)] /\
        Forall dict_reply earlier /\
        (forall d, v <> VDict d) /\
        x = AttributeError_get v
  end.
Proof.
  intros Hrun. apply trace_shape with (results := []).
  exact (run_trace json_dumps chain_invoke _ _ _ _ Hrun).
Qed.

(** The list built so far only prefixes what the loop returns. *)
Lemma loop_results_prefix ctxs : forall results log,
  loop ctxs results log =
    (match fst (loop ctxs [] log) with
     | inr rs => inr (results ++ rs)
     | inl x => inl x
     end,
     snd (loop ctxs [] log)).
Proof.
  induction ctxs as [|ctx rest IH]; intros results log.
  - cbn. rewrite app_nil_r. reflexivity.
  - destruct (chain_invoke log (input_of ctx)) as [e|v] eqn:Hc.
    + rewrite !(assess_loop_call_failed _ _ _ rest _ _ _ Hc). reflexivity.
    + destruct (reply_dict_or_not v) as [[d ->] | Hv].
      * destruct (assess_loop_append _ _ _ rest results _ _ Hc)
          as (a & p & Ha & Hp & ->).
        destruct (assess_loop_append _ _ _ rest [] _ _ Hc)
          as (a' & p' & Ha' & Hp' & ->).
        rewrite Ha in Ha'. rewrite Hp in Hp'.
        injection Ha' as <-. injection Hp' as <-.
        rewrite (IH (results ++ [result_item ctx a p])).
        rewrite (IH ([] ++ [result_item ctx a p])).
        cbn [fst snd].
        destruct (fst (assess_loop json_dumps chain_invoke rest []
                         (log ++ [(input_of ctx, inr (VDict d))]))) as [x|rs];
          [reflexivity|].
        rewrite <- app_assoc. reflexivity.
      * rewrite !(assess_loop_no_get _ _ _ rest _ _ _ Hc Hv). reflexivity.
Qed.

Lemma loop_app ctxs1 ctxs2 : forall results log,
  loop (ctxs1 ++ ctxs2) results log =
    match loop ctxs1 results log with
    | (inr rs, log1) => loop ctxs2 rs log1
    | (inl x, log1) => (inl x, log1)
    end.
Proof.
  induction ctxs1 as [|ctx rest IH]; intros results log; [reflexivity|].
  cbn [app].
  destruct (chain_invoke log (input_of ctx)) as [e|v] eqn:Hc.
  - rewrite (assess_loop_call_failed _ _ _ (rest ++ ctxs2) _ _ _ Hc),
            (assess_loop_call_failed _ _ _ rest _ _ _ Hc).
    reflexivity.
  - destruct (reply_dict_or_not v) as [[d ->] | Hv].
    + destruct (assess_loop_append _ _ _ (rest ++ ctxs2) results _ _ Hc)
        as (a & p & Ha & Hp & ->).
      destruct (assess_loop_append _ _ _ rest results _ _ Hc)
        as (a' & p' & Ha' & Hp' & ->).
      rewrite Ha in Ha'. rewrite Hp in Hp'.
      injection Ha' as <-. injection Hp' as <-.
      apply IH.
    + rewrite (assess_loop_no_get _ _ _ (rest ++ ctxs2) _ _ _ Hc Hv),
              (assess_loop_no_get _ _ _ rest _ _ _ Hc Hv).
      reflexivity.
Qed.

(** X9.  Handling a batch is handling its first part and then, if that
    returned, its second part from the log the first part left: the
    results are the two lists one after the other; the first failure of
    either part is the failure of the whole, and a failure of the first
    part leaves the second part untouched. *)
Theorem handler_batch_split ctxs1 ctxs2 log :
  assess_note_context json_dumps chain_invoke (ctxs1 ++ ctxs2) log =
    match assess_note_context json_dumps chain_invoke ctxs1 log with
    | (inl x, log1) => (inl x, log1)
    | (inr results1, log1) =>
        match assess_note_context json_dumps chain_invoke ctxs2 log1 with
        | (inl x, log2) => (inl x, log2)
        | (inr results2, log2) => (inr (results1 ++ results2), log2)
        end
    end.
Proof.
  unfold assess_note_context. rewrite loop_app.
  destruct (loop ctxs1 [] log) as [[x|results1] log1]; [reflexivity|].
  rewrite loop_results_prefix.
  destruct (loop ctxs2 [] log1) as [[x|results2] log2]; reflexivity.
Qed.

(** A request that cannot reach the model leaves the log alone. *)
Lemma quiet_request_keeps_log req log :
  reaches_model req = false ->
  snd (serve1 getenv json_dumps chain_invoke req log) = log.
Proof.
  destruct req as [body|]; cbn [reaches_model serve1]; [|reflexivity].
  unfold post_assess.
  destruct (validate_body body) as [[|ctx ctxs]| |e]; intros H;
    try discriminate H; reflexivity.
Qed.

(** X10.  Only a [POST] whose body validates to a batch that is not
    empty touches the call log.  Health checks, rejected bodies and empty
    batches can be taken out of a run of the server without changing the
    log it ends with or the answer to any other request. *)
Theorem quiet_requests_do_not_interfere reqs log :
  snd (run (filter reaches_model reqs) log) = snd (run reqs log) /\
  fst (run (filter reaches_model reqs) log) =
    map snd (filter (fun p => reaches_model (fst p))
               (combine reqs (fst (run reqs log)))).
Proof.
  revert log. induction reqs as [|req reqs IH]; intros log; [split; reflexivity|].
  cbn [filter serve].
  destruct (serve1 getenv json_dumps chain_invoke req log) as [resp log1] eqn:H1.
  destruct (run reqs log1) as [resps log2] eqn:H2.
  cbn [fst snd combine filter].
  destruct (reaches_model req) eqn:Hreq.
  - cbn [serve]. rewrite H1.
    destruct (IH log1) as [IHlog IHresp]. rewrite H2 in IHlog, IHresp.
    cbn [fst snd] in IHlog, IHresp.
    destruct (run (filter reaches_model reqs) log1) as [resps' log2'].
    cbn [fst snd map] in *. subst. split; reflexivity.
  - pose proof (quiet_request_keeps_log req log Hreq) as Hq.
    rewrite H1 in Hq. cbn [snd] in Hq. subst log1.
    destruct (IH log) as [IHlog IHresp]. rewrite H2 in IHlog, IHresp.
    split; assumption.
Qed.

(** X12.  A 200 answer of [POST /assess-2217124] is always a list with
    one result per record of the body, each result an object with exactly
    the seven keys [pgm_name], [inc_name], [type], [name], [code],
    [assessment], [llm_prompt]; and the request made one model call per
    record. *)
Theorem ok_response_shape body log content :
  fst (post body log) = Response200 content ->
  exists records results calls,
    body = VList records /\
    content = VList results /\
    snd (post body log) = log ++ calls /\
    List.length results = List.length records /\
    List.length calls = List.length records /\
    Forall (fun res => exists fields, res = VDict fields /\ map fst fields = result_keys)
           results.
Proof.
  unfold post_assess.
  destruct (validate_body body) as [ctxs| |e] eqn:Hbody;
    [| cbn [fst]; destruct (forallb json_compliant (body_errors body));
       intros H; discriminate H
     | intros H; discriminate H].
  unfold validate_body in Hbody.
  destruct body as [| | | | |records|]; cbn [validate_list] in Hbody;
    try discriminate Hbody.
  apply validate_items_valid in Hbody. apply Forall2_length in Hbody.
  unfold assess_note_context.
  destruct (assess_loop_trace json_dumps chain_invoke ctxs [] log)
    as (calls & Hlog & Htr).
  destruct (loop ctxs [] log) as [[x|results] log'] eqn:Hrun;
    cbn [fst snd respond] in *.
  - destruct x; intros H; discriminate H.
  - destruct (json_compliant (VList results)); intros H; [|discriminate H].
    injection H as <-.
    destruct (trace_returned json_dumps _ _ _ _ Htr _ eq_refl)
      as (new & Hnew & Hlen & Hcalls & Hitems).
    cbn [app] in Hnew. subst new.
    exists records, results, calls.
    repeat split; try congruence.
    apply Forall_forall. intros res Hin.
    destruct (In_nth_error _ _ Hin) as [i Hi].
    assert (Hlt : i < List.length ctxs).
    { rewrite <- Hlen. apply nth_error_Some. congruence. }
    destruct (nth_error ctxs i) as [ctx|] eqn:Hctx;
      [| apply nth_error_None in Hctx; lia].
    destruct (Hitems i ctx Hctx) as (d & a & p & _ & _ & _ & Hres).
    rewrite Hres in Hi. injection Hi as <-.
    eexists. split; reflexivity.
Qed.

End Runs.

Lemma handler_outcomes_witness :
  exists earlier input e,
    snd (assess_note_context dumps_stub chain_fail_second three_units []) =
      earlier ++ [(input, inl e)] /\
    List.length earlier = 1.
Proof.
  pose proof (handler_outcomes dumps_stub chain_fail_second three_units []
                (fst (assess_note_context dumps_stub chain_fail_second three_units []))
                (snd (assess_note_context dumps_stub chain_fail_second three_units []))
                eq_refl) as H.
  cbn [fst assess_note_context] in H.
  change (fst (assess_loop dumps_stub chain_fail_second three_units [] []))
    with (@inl exn (list pyval)
            (HTTPException 502 "LLM call failed: Connection error.")) in H.
  destruct H as (earlier & input & e & Hcalls & _).
  exists earlier, input, e. split; [exact Hcalls|].
  apply (f_equal (@List.length _)) in Hcalls.
  rewrite length_app in Hcalls. cbn in Hcalls. lia.
Defined.

Lemma ok_response_shape_witness :
  exists records results,
    example_request = VList records /\
    fst (post_assess dumps_stub chain_ok example_request []) = Response200 (VList results) /\
    List.length results = List.length records.
Proof.
  destruct (ok_response_shape dumps_stub chain_ok example_request []
              (VList [ VDict [ ("pgm_name", VStr "Z_CM"); ("inc_name", VStr "Z_CM_I01");
                               ("type", VStr "FORM"); ("name", VStr "CHECK_CREDIT");
                               ("code", VStr ""); ("assessment", VStr "obsolete");
                               ("llm_prompt", VStr "replace") ] ])
              eq_refl)
    as (records & results & calls & Hbody & Hcontent & _ & Hlen & _).
  exists records, results. split; [exact Hbody|]. split; [|exact Hlen].
  rewrite <- Hcontent. reflexivity.
Defined.

(** ** Required fields *)

Section Required.

Variable json_dumps : pyval -> string.
Variable chain_invoke : call_log -> pyval -> llm_outcome.

Local Abbreviation post := (post_assess json_dumps chain_invoke).

(** X15.  A usage object in which one of the five required keys is
    missing, or in which [table], [target_type] or [target_name] is bound
    to something that is not a string (a number is not converted), is
    never accepted, wherever it stands in the body, and no model call is
    made.  The answer is the 422 when every input the validation errors
    report renders as JSON; the 500 of the rendering when one of them
    holds an infinity or a NaN; and the 500 of the [TypeError] when
    [no_none] crashed on a field that cannot be iterated over. *)
Theorem bad_required_field_rejected records rd usages ud k log :
  In (VDict rd) records ->
  dict_find "cm_obj_usage" rd = Some (VList usages) ->
  In (VDict ud) usages ->
  (In k ["table"; "target_type"; "target_name"; "used_fields"; "suggested_fields"] /\
   dict_find k ud = None) \/
  (In k ["table"; "target_type"; "target_name"] /\
   exists v, dict_find k ud = Some v /\ forall s, v <> VStr s) ->
  (forall ctxs, validate_body (VList records) <> Valid ctxs) /\
  snd (post (VList records) log) = log /\
  ((validate_body (VList records) = Invalid /\
    forallb json_compliant (body_errors (VList records)) = true /\
    fst (post (VList records) log) = ValidationError422) \/
   (validate_body (VList records) = Invalid /\
    forallb json_compliant (body_errors (VList records)) = false /\
    fst (post (VList records) log) = InternalServerError500 ValueError_not_compliant) \/
   (exists raw,
      validate_body (VList records) = Crashed (TypeError_not_iterable raw) /\
      In (type_name raw) ["NoneType"; "bool"; "int"; "float"] /\
      fst (post (VList records) log) =
        InternalServerError500 (TypeError_not_iterable raw))).
Proof.
  intros Hrec Husages Hud Hbadfield.
  assert (Hbad : forall ctxs, validate_body (VList records) <> Valid ctxs).
  { intros ctxs Hv. unfold validate_body, validate_list in Hv.
    apply validate_items_valid in Hv.
    destruct (Forall2_In_left _ _ _ _ Hv Hrec) as [ctx Hctx].
    cbn [validate_NoteContext] in Hctx.
    apply vap_valid in Hctx as (g & us & _ & Hus & _).
    unfold defaulted in Hus. rewrite Husages in Hus.
    unfold validate_list in Hus. apply validate_items_valid in Hus.
    destruct (Forall2_In_left _ _ _ _ Hus Hud) as [item Hitem].
    destruct (validate_SelectItem_valid _ _ Hitem)
      as (d & ru & rs & Hd & F1 & F2 & F3 & F4 & _ & F5 & _).
    injection Hd as <-.
    destruct Hbadfield as [[Hk Hnone] | [Hk (v & Hsome & Hv')]]; cbn [In] in Hk.
    - destruct Hk as [<-|[<-|[<-|[<-|[<-|[]]]]]]; congruence.
    - destruct Hk as [<-|[<-|[<-|[]]]];
        rewrite Hsome in *;
        match goal with
        | H : Some v = Some (VStr ?s) |- _ =>
            injection H as ->; exact (Hv' s eq_refl)
        end. }
  split; [exact Hbad|].
  split; [exact (proj1 (rejected_body_makes_no_call json_dumps chain_invoke _ log Hbad))|].
  unfold post_assess.
  destruct (validate_body (VList records)) as [ctxs| |e] eqn:Hbody.
  - exfalso. exact (Hbad ctxs eq_refl).
  - cbn [fst].
    destruct (forallb json_compliant (body_errors (VList records)));
      [left | right; left]; repeat split.
  - right. right.
    unfold validate_body in Hbody. cbn [validate_list] in Hbody.
    apply validate_items_crashed in Hbody as (record & _ & Hcrash).
    apply validate_NoteContext_crashed in Hcrash as (raw & Hcrash).
    apply validate_fields_crashed in Hcrash as [-> Hty].
    exists raw. repeat split. exact Hty.
Qed.

End Required.

Lemma bad_required_field_rejected_witness :
  post_assess dumps_stub chain_ok
    (raw_request [raw_usage (Some (VFloat (S754_infinity false))) (VList [VStr "KUNNR"])])
    [] = (InternalServerError500 ValueError_not_compliant, []).
Proof.
  destruct (bad_required_field_rejected dumps_stub chain_ok
              [ VDict [ ("pgm_name", VStr "Z_CM"); ("inc_name", VStr "Z_CM_I01");
                        ("type", VStr "FORM"); ("name", VStr "CHECK_CREDIT");
                        ("cm_obj_usage",
                          VList [raw_usage (Some (VFloat (S754_infinity false)))
                                   (VList [VStr "KUNNR"])]) ] ]
              [ ("pgm_name", VStr "Z_CM"); ("inc_name", VStr "Z_CM_I01");
                ("type", VStr "FORM"); ("name", VStr "CHECK_CREDIT");
                ("cm_obj_usage",
                  VList [raw_usage (Some (VFloat (S754_infinity false)))
                           (VList [VStr "KUNNR"])]) ]
              [raw_usage (Some (VFloat (S754_infinity false))) (VList [VStr "KUNNR"])]
              [ ("table", VFloat (S754_infinity false)); ("target_type", VStr "TABLE");
                ("target_name", VStr "S066");
                ("used_fields", VList [VStr "KUNNR"]);
                ("suggested_fields", VList [VStr "UKM_ITEM"]) ]
              "table" [])
    as (_ & Hlog & [(_ & Hrender & _) | [(_ & _ & Hresp) | (raw & Hcrash & _)]]).
  - left. reflexivity.
  - reflexivity.
  - left. reflexivity.
  - right. split; [left; reflexivity|].
    exists (VFloat (S754_infinity false)). split; [reflexivity|].
    intros s H. discriminate H.
  - discriminate Hrender.
  - apply injective_projections; [exact Hresp | exact Hlog].
  - discriminate Hcrash.
Defined.

(** ** Replies and inputs that do not render

    The two places where a float that JSON cannot write reaches a
    response: a reply of the model on the way into the 200, and an input
    reported by a validation error on the way into the 422. *)

Lemma infinite_reply_value_is_500 :
  fst (post_assess dumps_stub chain_infinity example_request []) =
    InternalServerError500 ValueError_not_compliant /\
  fst (assess_note_context dumps_stub chain_infinity
         [ mkNoteContext (Some "Z_CM") (Some "Z_CM_I01") (Some "FORM")
             (Some "CHECK_CREDIT")
             [ mkSelectItem "S066" "TABLE" "S066" ["KUNNR"] ["UKM_ITEM"] None ] ] []) =
    inr [ VDict [ ("pgm_name", VStr "Z_CM"); ("inc_name", VStr "Z_CM_I01");
                  ("type", VStr "FORM"); ("name", VStr "CHECK_CREDIT");
                  ("code", VStr "");
                  ("assessment", VFloat (S754_infinity false));
                  ("llm_prompt", VStr "") ] ].
Proof. split; reflexivity. Qed.

Lemma infinite_input_in_422_is_500 :
  post_assess dumps_stub chain_ok
    (raw_request [raw_usage (Some (VFloat (S754_infinity false))) (VList [VStr "KUNNR"])])
    [] = (InternalServerError500 ValueError_not_compliant, []) /\
  post_assess dumps_stub chain_ok
    (raw_request [raw_usage (Some (VInt 66)) (VList [VStr "KUNNR"])])
    [] = (ValidationError422, []).
Proof. split; reflexivity. Qed.
